(** * PAXG arbitrage monitor: depth pricer, cycle orchestrator, record builder

    A shallow embedding of [paxg_monitor.py].

    - [Module Dec] models the part of Python's [decimal.Decimal] that
      [calculate_orderbook_spread] uses, under the default context
      (28 significant digits, ROUND_HALF_EVEN): results are rounded as
      [Decimal._fix] rounds them, division follows [__truediv__].
    - [calculate_orderbook_spread] is the depth pricer.  Its result holds
      the four Decimals the source hands to [float()]; the conversion to
      binary floating point is not modelled.
    - [fetch_all_data] builds the bundle from the outcomes of the seven
      requests of [BinanceAPI]; a request returns its payload or raises an
      [Exception].
    - [process_and_write] and its six writers run on an explicit store:
      the lines appended to each file, and the files that cannot be
      appended to.  Payloads have the shapes the client methods return;
      numeric text (book levels, kline fields) is given by the number it
      denotes. *)

From Stdlib Require Import ZArith QArith Qpower Lia Lra Psatz.
From stdpp Require Import gmap strings list.

Local Open Scope Z_scope.

(** ** Decimal arithmetic *)

Module Dec.

(** A finite [Decimal]: the value is [coeff * 10 ^ exp].  Python keeps the
    sign apart from a non-negative coefficient; here the coefficient is
    signed.  NaN, infinities and the exponent limits of the context
    (Emin = -999999, Emax = 999999) are outside the model. *)
Record Decimal : Type := mk { coeff : Z; exp : Z }.

(** [getcontext().prec] of the default context. *)
Definition prec : Z := 28.

(** [Decimal("0")] and [Decimal(2)]. *)
Definition D0 : Decimal := mk 0 0.
Definition D2 : Decimal := mk 2 0.

(** [len(str(n))] for a non-negative integer [n]. *)
Fixpoint ndigits_aux (fuel : nat) (n : Z) : Z :=
  match fuel with
  | O => 1
  | S f => if n <? 10 then 1 else 1 + ndigits_aux f (n / 10)
  end.

Definition ndigits (n : Z) : Z := ndigits_aux (Z.to_nat (Z.log2 n)) n.

(** [Decimal._fix]: a coefficient of more than [prec] digits is rounded
    half-even to [prec] digits; a carry to [10 ^ prec] drops one more
    digit. *)
Definition _fix (d : Decimal) : Decimal :=
  let a := Z.abs (coeff d) in
  let n := ndigits a in
  if n <=? prec then d
  else
    let k := n - prec in
    let q := a / 10 ^ k in
    let r := a mod 10 ^ k in
    let q' := if (10 ^ k <? 2 * r) || ((10 ^ k =? 2 * r) && Z.odd q)
              then q + 1 else q in
    if q' =? 10 ^ prec
    then mk (Z.sgn (coeff d) * 10 ^ (prec - 1)) (exp d + k + 1)
    else mk (Z.sgn (coeff d) * q') (exp d + k).

(** Unrounded sum, product and negation. *)
Definition xadd (a b : Decimal) : Decimal :=
  let e := Z.min (exp a) (exp b) in
  mk (coeff a * 10 ^ (exp a - e) + coeff b * 10 ^ (exp b - e)) e.

Definition xmul (a b : Decimal) : Decimal :=
  mk (coeff a * coeff b) (exp a + exp b).

Definition xneg (a : Decimal) : Decimal := mk (- coeff a) (exp a).

Definition xsub (a b : Decimal) : Decimal := xadd a (xneg b).

(** [a + b], [a - b], [a * b]: the exact result, then [_fix]. *)
Definition dadd (a b : Decimal) : Decimal := _fix (xadd a b).
Definition dsub (a b : Decimal) : Decimal := _fix (xsub a b).
Definition dmul (a b : Decimal) : Decimal := _fix (xmul a b).

(** Comparisons are by value: coefficients brought to the common (least)
    exponent. *)
Definition aligned (a b : Decimal) : Z * Z :=
  let e := Z.min (exp a) (exp b) in
  (coeff a * 10 ^ (exp a - e), coeff b * 10 ^ (exp b - e)).

Definition dlt (a b : Decimal) : bool :=
  let '(x, y) := aligned a b in x <? y.
Definition dle (a b : Decimal) : bool :=
  let '(x, y) := aligned a b in x <=? y.
Definition deq (a b : Decimal) : bool :=
  let '(x, y) := aligned a b in x =? y.

(** [bool(d)]: a Decimal is falsy exactly when its coefficient is zero. *)
Definition truthy (d : Decimal) : bool := negb (coeff d =? 0).

(** The builtin [min(a, b)]: the first argument unless the second is
    strictly less. *)
Definition dmin (a b : Decimal) : Decimal := if dlt b a then b else a.

(** The loop of [__truediv__] that strips trailing zeros of an exact
    quotient up to the ideal exponent. *)
Fixpoint strip_zeros (fuel : nat) (c e ideal : Z) : Z * Z :=
  match fuel with
  | O => (c, e)
  | S f =>
    if (e <? ideal) && (c mod 10 =? 0)
    then strip_zeros f (c / 10) (e + 1) ideal
    else (c, e)
  end.

(** The unsigned part of [__truediv__] for non-zero operands: [x] and [y]
    are the coefficients, [ideal] is [self._exp - other._exp].  The
    quotient is taken to [prec + 1] or [prec + 2] digits; a non-zero
    remainder is kept as a sticky last digit, an exact quotient is brought
    towards the ideal exponent. *)
Definition div_coeff (x y ideal : Z) : Z * Z :=
  let shift := ndigits y - ndigits x + prec + 1 in
  let e := ideal - shift in
  let '(q, r) :=
    if 0 <=? shift
    then (x * 10 ^ shift / y, (x * 10 ^ shift) mod y)
    else (x / (y * 10 ^ (- shift)), x mod (y * 10 ^ (- shift))) in
  if negb (r =? 0)
  then (if q mod 5 =? 0 then q + 1 else q, e)
  else strip_zeros (Z.to_nat (ideal - e)) q e ideal.

(** [a / b].  [None] stands for the DivisionByZero (or InvalidOperation)
    the default context raises on a zero divisor. *)
Definition ddiv (a b : Decimal) : option Decimal :=
  if coeff b =? 0 then None
  else if coeff a =? 0 then Some (_fix (mk 0 (exp a - exp b)))
  else
    let sign := Z.sgn (coeff a) * Z.sgn (coeff b) in
    let '(q, e) :=
      div_coeff (Z.abs (coeff a)) (Z.abs (coeff b)) (exp a - exp b) in
    Some (_fix (mk (sign * q) e)).

(** The rational a Decimal denotes. *)
Definition toQ (d : Decimal) : Q := inject_Z (coeff d) * (inject_Z 10) ^ exp d.

(** A Decimal that [_fix] leaves alone. *)
Definition fits (d : Decimal) : bool := ndigits (Z.abs (coeff d)) <=? prec.

End Dec.

Import Dec.

(** ** Depth pricer *)

(** One level of a book side, [(price, qty)], each already through
    [Decimal(str(.))]. *)
Definition level : Type := Decimal * Decimal.

(** The loop over one side of the book, written once for the bids and the
    asks.  [qty_sum] and [value_sum] are the running sums; the loop ends at
    the end of the side or on [remaining <= 0], the [break]. *)
Fixpoint accumulate (levels : list level) (target_quantity : Decimal)
    (qty_sum value_sum : Decimal) : Decimal * Decimal :=
  match levels with
  | [] => (qty_sum, value_sum)
  | (price, qty) :: rest =>
    let remaining := dsub target_quantity qty_sum in
    if dle remaining D0 then (qty_sum, value_sum)
    else
      let fill_qty := dmin qty remaining in
      accumulate rest target_quantity
        (dadd qty_sum fill_qty) (dadd value_sum (dmul fill_qty price))
  end.

(** The weighted average price of one side: [value_sum / qty_sum] when
    something was filled, else [Decimal("0")]. *)
Definition avg_price (levels : list level) (target_quantity : Decimal)
    : option Decimal :=
  let '(qty_sum, value_sum) := accumulate levels target_quantity D0 D0 in
  if dlt D0 qty_sum then ddiv value_sum qty_sum else Some D0.

(** The returned dict.  Each field holds the Decimal that the source passes
    to [float()]. *)
Record quote : Type := mkQuote {
  bid_price : Decimal;
  ask_price : Decimal;
  spread : Decimal;
  mid_price : Decimal
}.

(** [calculate_orderbook_spread(orderbook, target_quantity)];
    [target_quantity] is [Decimal(str(target_quantity))]. *)
Definition calculate_orderbook_spread (orderbook : gmap string (list level))
    (target_quantity : Decimal) : option quote :=
  let bids := default [] (orderbook !! "bids") in
  let asks := default [] (orderbook !! "asks") in
  bid_avg_price ← avg_price bids target_quantity;
  ask_avg_price ← avg_price asks target_quantity;
  let both := truthy ask_avg_price && truthy bid_avg_price in
  let spread := if both then dsub ask_avg_price bid_avg_price else D0 in
  mid_price ← (if both then ddiv (dadd ask_avg_price bid_avg_price) D2
               else Some D0);
  Some (mkQuote bid_avg_price ask_avg_price spread mid_price).

(** *** What the loop did, for the statements below *)

(** The [(price, fill_qty)] of each iteration the loop ran. *)
Fixpoint fills (levels : list level) (target_quantity qty_sum : Decimal)
    : list (Decimal * Decimal) :=
  match levels with
  | [] => []
  | (price, qty) :: rest =>
    let remaining := dsub target_quantity qty_sum in
    if dle remaining D0 then []
    else
      let fill_qty := dmin qty remaining in
      (price, fill_qty) :: fills rest target_quantity (dadd qty_sum fill_qty)
  end.

(** The prices of the levels consumed: those with a positive fill. *)
Definition consumed_prices (levels : list level) (target_quantity : Decimal)
    : list Decimal :=
  (filter (λ pf, dlt D0 pf.2 = true) (fills levels target_quantity D0)).*1.



(** The depth of a side and its notional value, without rounding. *)
Definition total_depth (levels : list level) : Decimal :=
  foldl (λ acc (l : level), xadd acc l.2) D0 levels.


(** No step of the loop rounds: the prices read and every difference, sum
    and product computed have at most [prec] digits. *)
Fixpoint no_rounding (levels : list level)
    (target_quantity qty_sum value_sum : Decimal) : bool :=
  match levels with
  | [] => true
  | (price, qty) :: rest =>
    let remaining := dsub target_quantity qty_sum in
    if dle remaining D0 then true
    else
      let fill_qty := dmin qty remaining in
      fits (xsub target_quantity qty_sum)
      && fits price
      && fits (xadd qty_sum fill_qty)
      && fits (xmul fill_qty price)
      && fits (xadd value_sum (dmul fill_qty price))
      && no_rounding rest target_quantity
           (dadd qty_sum fill_qty) (dadd value_sum (dmul fill_qty price))
  end.

(** The quantity and the value of a list of fills, as rationals. *)
Fixpoint filled_qty (fl : list (Decimal * Decimal)) : Q :=
  match fl with
  | [] => 0%Q
  | (_, f) :: rest => (toQ f + filled_qty rest)%Q
  end.

Fixpoint filled_value (fl : list (Decimal * Decimal)) : Q :=
  match fl with
  | [] => 0%Q
  | (p, f) :: rest => (toQ f * toQ p + filled_value rest)%Q
  end.

Definition nonneg_qty (levels : list level) : Prop :=
  Forall (λ l : level, 0 <= coeff l.2) levels.

(** ** Payloads, records and the store *)

(** A decoded JSON value.  Numbers with a fraction do not occur: the
    provider sends prices, rates and volumes as strings. *)
#[warnings="-register-all"]
Inductive json : Type :=
| JNull
| JBool (b : bool)
| JInt (n : Z)
| JStr (s : string)
| JList (l : list json)
| JObj (o : gmap string json).

(** [bool(j)]. *)
Definition json_truthy (j : json) : bool :=
  match j with
  | JNull => false
  | JBool b => b
  | JInt n => negb (n =? 0)
  | JStr s => negb (String.eqb s "")
  | JList l => match l with [] => false | _ :: _ => true end
  | JObj o => negb (bool_decide (o = ∅))
  end.

(** What a client method returns, by shape: a dict (ticker, premium
    index), a list of dicts (basis, open-interest history, funding rate),
    the depth dict, the kline rows.  A row field and a book level are
    given by the number they denote. *)
Inductive payload : Type :=
| PDict (d : gmap string json)
| PDicts (l : list (gmap string json))
| PBook (b : gmap string (list level))
| PRows (k : list (list Decimal)).

Definition payload_truthy (p : payload) : bool :=
  match p with
  | PDict d => negb (bool_decide (d = ∅))
  | PDicts l => match l with [] => false | _ :: _ => true end
  | PBook b => negb (bool_decide (b = ∅))
  | PRows k => match k with [] => false | _ :: _ => true end
  end.

(** A value of an output record: a JSON value passed through, or
    [float(d)]. *)
Inductive pyval : Type :=
| VJson (j : json)
| VFloat (d : Decimal).

Inductive exn : Type :=
| ClientError
| TimeoutError
| OSError
| TypeError
| ZeroDivisionError.

(** The files: the records appended to each path so far, and the paths
    that cannot be opened for appending. *)
Record world : Type := mkWorld {
  lines : gmap string (list (gmap string pyval));
  unwritable : gset string
}.

Inductive result (A : Type) : Type :=
| Ok (a : A)
| Raise (e : exn).
Arguments Ok {A} a.
Arguments Raise {A} e.

(** Code that may raise and touches no file. *)
#[global] Instance result_ret : MRet result := λ A a, Ok a.
#[global] Instance result_bind : MBind result := λ A B f m,
  match m with
  | Ok a => f a
  | Raise e => Raise e
  end.

(** A method that appends to files and may raise; what was written before
    an exception stays written. *)
Definition M (A : Type) : Type := world → world * result A.

#[global] Instance M_ret : MRet M := λ A a w, (w, Ok a).
#[global] Instance M_bind : MBind M := λ A B f m w,
  match m w with
  | (w', Ok a) => f a w'
  | (w', Raise e) => (w', Raise e)
  end.

Definition lift {A : Type} (r : result A) : M A := λ w, (w, r).

(** ** The client *)

(** The outcome of one request: its payload, or the exception it raised. *)
Inductive outcome (A : Type) : Type :=
| Returned (a : A)
| Raised (e : exn).
Arguments Returned {A} a.
Arguments Raised {A} e.

Definition outcome_map {A B : Type} (f : A → B) (o : outcome A) : outcome B :=
  match o with
  | Returned a => Returned (f a)
  | Raised e => Raised e
  end.

(** [BinanceAPI]: what each request of one cycle comes to. *)
Record BinanceAPI : Type := {
  get_futures_ticker : string → outcome (gmap string json);
  get_futures_orderbook : string → Z → outcome (gmap string (list level));
  get_futures_kline : string → outcome (list (list Decimal));
  get_basis : string → outcome (list (gmap string json));
  get_open_interest_hist : string → outcome (list (gmap string json));
  get_funding_rate : string → outcome (list (gmap string json));
  get_premium_index : string → outcome (gmap string json)
}.

(** ** The monitor *)

(** [target_oz] is kept as [Decimal(str(self.target_oz))]. *)
Record PAXGMonitor : Type := {
  output_dir : string;
  target_oz : Decimal
}.

Definition symbol : string := "PAXGUSDT".
Definition pair : string := "PAXGUSDT".

Definition files (self : PAXGMonitor) : gmap string string :=
  {[ "price" := output_dir self +:+ "/price.jsonl";
     "basisRate" := output_dir self +:+ "/basisRate.jsonl";
     "openinterest" := output_dir self +:+ "/openinterest.jsonl";
     "fundingRate" := output_dir self +:+ "/fundingRate.jsonl";
     "volume_24h" := output_dir self +:+ "/volume_24h.jsonl";
     "spread" := output_dir self +:+ "/spread.jsonl" ]}.

(** [asyncio.gather] with [return_exceptions=True]: the outcomes in the
    order of the awaitables, an exception being a result like any other. *)
Definition gather_return_exceptions {A : Type} (aws : list (outcome A))
    : list (outcome A) := aws.

(** The [tasks] dict of [fetch_all_data], in its order. *)
Definition tasks (api : BinanceAPI) : list (string * outcome payload) :=
  [ ("ticker", outcome_map PDict (get_futures_ticker api symbol));
    ("orderbook", outcome_map PBook (get_futures_orderbook api symbol 100));
    ("kline", outcome_map PRows (get_futures_kline api symbol));
    ("basis", outcome_map PDicts (get_basis api pair));
    ("open_interest_hist",
      outcome_map PDicts (get_open_interest_hist api symbol));
    ("funding_rate", outcome_map PDicts (get_funding_rate api symbol));
    ("premium_index", outcome_map PDict (get_premium_index api symbol)) ].

Definition fetch_all_data (self : PAXGMonitor) (api : BinanceAPI)
    : gmap string (option payload) :=
  let gathered := gather_return_exceptions (tasks api).*2 in
  foldl (λ results '(key, result),
           match result with
           | Raised _ => <[key := None]> results
           | Returned p => <[key := Some p]> results
           end)
        ∅ (zip (tasks api).*1 gathered).

(** [raw_data.get(key) or <default>]: [None] when the default is taken. *)
Definition get_or (raw_data : gmap string (option payload)) (key : string)
    : option payload :=
  match raw_data !! key with
  | Some (Some p) => if payload_truthy p then Some p else None
  | _ => None
  end.

(** The four reads below take the entry at the shape its client method
    returns; what Python does with an entry of another shape is not
    followed, it is a [TypeError] here. *)
Definition get_dict (raw_data : gmap string (option payload)) (key : string)
    : result (gmap string json) :=
  match get_or raw_data key with
  | None => Ok ∅
  | Some (PDict d) => Ok d
  | Some _ => Raise TypeError
  end.

Definition get_dicts (raw_data : gmap string (option payload)) (key : string)
    : result (list (gmap string json)) :=
  match get_or raw_data key with
  | None => Ok []
  | Some (PDicts l) => Ok l
  | Some _ => Raise TypeError
  end.

Definition get_book (raw_data : gmap string (option payload)) (key : string)
    : result (gmap string (list level)) :=
  match get_or raw_data key with
  | None => Ok ∅
  | Some (PBook b) => Ok b
  | Some _ => Raise TypeError
  end.

Definition get_rows (raw_data : gmap string (option payload)) (key : string)
    : result (list (list Decimal)) :=
  match get_or raw_data key with
  | None => Ok [[]]
  | Some (PRows k) => Ok k
  | Some _ => Raise TypeError
  end.

(** [d.get(key, dflt)]. *)
Definition dict_get (d : gmap string json) (key : string) (dflt : json)
    : json := default dflt (d !! key).

Definition spread_info (orderbook : gmap string (list level))
    (target_quantity : Decimal) : result quote :=
  match calculate_orderbook_spread orderbook target_quantity with
  | Some q => Ok q
  | None => Raise ZeroDivisionError
  end.

Definition append_line (filepath : string) (data : gmap string pyval)
    (w : world) : world :=
  mkWorld (<[filepath := (lines w !!! filepath) ++ [data]]> (lines w))
          (unwritable w).

Definition _append_jsonl (filepath : string) (data : gmap string pyval)
    : M unit :=
  λ w, if bool_decide (filepath ∈ unwritable w) then (w, Raise OSError)
       else (append_line filepath data w, Ok ()).

(** [float(kline[0][4]) if kline and len(kline[0]) > 4 else 0]. *)
Definition close_price (kline : list (list Decimal)) : pyval :=
  match kline with
  | row :: _ =>
    match row !! 4%nat with
    | Some c => VFloat c
    | None => VJson (JInt 0)
    end
  | [] => VJson (JInt 0)
  end.

(** The [data] dict of each writer, then the writer. *)
Definition price_data (self : PAXGMonitor)
    (raw_data : gmap string (option payload)) (timestamp : Z)
    : result (gmap string pyval) :=
  kline ← get_rows raw_data "kline";
  orderbook ← get_book raw_data "orderbook";
  info ← spread_info orderbook (target_oz self);
  mret {[ "timestamp" := VJson (JInt timestamp);
          "price" := close_price kline;
          "mid_price" := VFloat (mid_price info) ]}.

Definition _write_price (self : PAXGMonitor)
    (raw_data : gmap string (option payload)) (timestamp : Z) : M unit :=
  data ← lift (price_data self raw_data timestamp);
  _append_jsonl (files self !!! "price") data.

Definition basis_data (self : PAXGMonitor)
    (raw_data : gmap string (option payload)) (timestamp : Z)
    : result (gmap string pyval) :=
  basis_list ← get_dicts raw_data "basis";
  mret
    match basis_list with
    | basis :: _ =>
      {[ "indexPrice" := VJson (dict_get basis "indexPrice" (JStr ""));
         "contractType" :=
           VJson (dict_get basis "contractType" (JStr "PERPETUAL"));
         "basisRate" := VJson (dict_get basis "basisRate" (JStr ""));
         "futuresPrice" := VJson (dict_get basis "futuresPrice" (JStr ""));
         "annualizedBasisRate" :=
           VJson (dict_get basis "annualizedBasisRate" (JStr ""));
         "basis" := VJson (dict_get basis "basis" (JStr ""));
         "pair" := VJson (JStr pair);
         "timestamp" := VJson (dict_get basis "timestamp" (JInt timestamp)) ]}
    | [] =>
      {[ "indexPrice" := VJson (JStr "");
         "contractType" := VJson (JStr "PERPETUAL");
         "basisRate" := VJson (JStr "");
         "futuresPrice" := VJson (JStr "");
         "annualizedBasisRate" := VJson (JStr "");
         "basis" := VJson (JStr "");
         "pair" := VJson (JStr pair);
         "timestamp" := VJson (JInt timestamp) ]}
    end.

Definition _write_basis_rate (self : PAXGMonitor)
    (raw_data : gmap string (option payload)) (timestamp : Z) : M unit :=
  data ← lift (basis_data self raw_data timestamp);
  _append_jsonl (files self !!! "basisRate") data.

Definition open_interest_data (self : PAXGMonitor)
    (raw_data : gmap string (option payload)) (timestamp : Z)
    : result (gmap string pyval) :=
  oi_list ← get_dicts raw_data "open_interest_hist";
  mret
    match oi_list with
    | oi :: _ =>
      {[ "symbol" := VJson (JStr symbol);
         "sumOpenInterest" := VJson (dict_get oi "sumOpenInterest" (JStr ""));
         "sumOpenInterestValue" :=
           VJson (dict_get oi "sumOpenInterestValue" (JStr ""));
         "timestamp" := VJson (dict_get oi "timestamp" (JInt timestamp)) ]}
    | [] =>
      {[ "symbol" := VJson (JStr symbol);
         "sumOpenInterest" := VJson (JStr "");
         "sumOpenInterestValue" := VJson (JStr "");
         "timestamp" := VJson (JInt timestamp) ]}
    end.

Definition _write_open_interest (self : PAXGMonitor)
    (raw_data : gmap string (option payload)) (timestamp : Z) : M unit :=
  data ← lift (open_interest_data self raw_data timestamp);
  _append_jsonl (files self !!! "openinterest") data.

(** The value of the [fundingRate] field: the premium index's
    [lastFundingRate], replaced by the first history entry's
    [fundingRate] on [not funding_rate and funding_list]. *)
Definition funding_rate_of (funding_list : list (gmap string json))
    (premium : gmap string json) : json :=
  let funding_rate := dict_get premium "lastFundingRate" (JStr "") in
  match funding_list with
  | first :: _ =>
    if negb (json_truthy funding_rate)
    then dict_get first "fundingRate" (JStr "")
    else funding_rate
  | [] => funding_rate
  end.

Definition funding_data (self : PAXGMonitor)
    (raw_data : gmap string (option payload)) (timestamp : Z)
    : result (gmap string pyval) :=
  funding_list ← get_dicts raw_data "funding_rate";
  premium ← get_dict raw_data "premium_index";
  mret {[ "symbol" := VJson (JStr symbol);
          "fundingRate" := VJson (funding_rate_of funding_list premium);
          "timestamp" := VJson (JInt timestamp) ]}.

Definition _write_funding_rate (self : PAXGMonitor)
    (raw_data : gmap string (option payload)) (timestamp : Z) : M unit :=
  data ← lift (funding_data self raw_data timestamp);
  _append_jsonl (files self !!! "fundingRate") data.

Definition volume_data (self : PAXGMonitor)
    (raw_data : gmap string (option payload)) (timestamp : Z)
    : result (gmap string pyval) :=
  ticker ← get_dict raw_data "ticker";
  mret {[ "symbol" := VJson (JStr symbol);
          "volume" := VJson (dict_get ticker "volume" (JStr ""));
          "quoteVolume" := VJson (dict_get ticker "quoteVolume" (JStr ""));
          "timestamp" := VJson (JInt timestamp) ]}.

Definition _write_volume (self : PAXGMonitor)
    (raw_data : gmap string (option payload)) (timestamp : Z) : M unit :=
  data ← lift (volume_data self raw_data timestamp);
  _append_jsonl (files self !!! "volume_24h") data.

Definition spread_data (self : PAXGMonitor)
    (raw_data : gmap string (option payload)) (timestamp : Z)
    : result (gmap string pyval) :=
  orderbook ← get_book raw_data "orderbook";
  info ← spread_info orderbook (target_oz self);
  mret {[ "symbol" := VJson (JStr symbol);
          "spread" := VFloat (spread info);
          "timestamp" := VJson (JInt timestamp) ]}.

Definition _write_spread (self : PAXGMonitor)
    (raw_data : gmap string (option payload)) (timestamp : Z) : M unit :=
  data ← lift (spread_data self raw_data timestamp);
  _append_jsonl (files self !!! "spread") data.

(** [process_and_write(raw_data)]; [now] is what
    [int(time.time() * 1000)] reads on entry. *)
Definition process_and_write (self : PAXGMonitor)
    (raw_data : gmap string (option payload)) (now : Z) : M unit :=
  let timestamp := now in
  _write_price self raw_data timestamp;;
  _write_basis_rate self raw_data timestamp;;
  _write_open_interest self raw_data timestamp;;
  _write_funding_rate self raw_data timestamp;;
  _write_volume self raw_data timestamp;;
  _write_spread self raw_data timestamp.


(** *** For the statements below *)

(** What the bundle holds for an outcome. *)
Definition recorded (o : outcome payload) : option payload :=
  match o with
  | Returned p => Some p
  | Raised _ => None
  end.

(** The series in the order [process_and_write] writes them. *)
Definition write_order : list string :=
  ["price"; "basisRate"; "openinterest"; "fundingRate"; "volume_24h"; "spread"].

(** The [timestamp] of the first entry of a history, the cycle's own when
    there is no entry or the entry has none. *)
Definition first_stamp (history : outcome (list (gmap string json)))
    (now : Z) : json :=
  match history with
  | Returned (first :: _) => dict_get first "timestamp" (JInt now)
  | _ => JInt now
  end.

(** The [timestamp] each series gets in a cycle. *)
Definition cycle_stamp (api : BinanceAPI) (now : Z) (series : string) : json :=
  if String.eqb series "basisRate" then first_stamp (get_basis api pair) now
  else if String.eqb series "openinterest"
       then first_stamp (get_open_interest_hist api symbol) now
       else JInt now.

(** What [raw_data.get(key) or <default>] reads for an outcome. *)
Definition or_dict (o : outcome (gmap string json)) : gmap string json :=
  match o with
  | Returned d => d
  | Raised _ => ∅
  end.

Definition or_dicts (o : outcome (list (gmap string json)))
    : list (gmap string json) :=
  match o with
  | Returned l => l
  | Raised _ => []
  end.

Definition or_book (o : outcome (gmap string (list level)))
    : gmap string (list level) :=
  match o with
  | Returned b => b
  | Raised _ => ∅
  end.

Definition or_rows (o : outcome (list (list Decimal))) : list (list Decimal) :=
  match o with
  | Returned (row :: rest) => row :: rest
  | _ => [[]]
  end.

(** A run of writers: each builds its dict, then appends it. *)
Fixpoint write_all (steps : list (string * result (gmap string pyval)))
    : M unit :=
  match steps with
  | [] => mret ()
  | (filepath, r) :: rest =>
    (data ← lift r; _append_jsonl filepath data);; write_all rest
  end.

(** The six writers of [process_and_write], as such a run. *)
Definition cycle_steps (self : PAXGMonitor)
    (raw_data : gmap string (option payload)) (now : Z)
    : list (string * result (gmap string pyval)) :=
  [ (files self !!! "price", price_data self raw_data now);
    (files self !!! "basisRate", basis_data self raw_data now);
    (files self !!! "openinterest", open_interest_data self raw_data now);
    (files self !!! "fundingRate", funding_data self raw_data now);
    (files self !!! "volume_24h", volume_data self raw_data now);
    (files self !!! "spread", spread_data self raw_data now) ].

(** *** Sample inputs *)

Definition sample_monitor : PAXGMonitor :=
  {| output_dir := "out"; target_oz := mk 20 (-1) |}.

(** Every request fails. *)
Definition api_down : BinanceAPI :=
  {| get_futures_ticker := λ _, Raised TimeoutError;
     get_futures_orderbook := λ _ _, Raised TimeoutError;
     get_futures_kline := λ _, Raised TimeoutError;
     get_basis := λ _, Raised TimeoutError;
     get_open_interest_hist := λ _, Raised TimeoutError;
     get_funding_rate := λ _, Raised TimeoutError;
     get_premium_index := λ _, Raised TimeoutError |}.

(** Only the basis request succeeds; its entry carries its own time. *)
Definition api_basis_only : BinanceAPI :=
  {| get_futures_ticker := λ _, Raised TimeoutError;
     get_futures_orderbook := λ _ _, Raised TimeoutError;
     get_futures_kline := λ _, Raised TimeoutError;
     get_basis := λ _,
       Returned [ {[ "basisRate" := JStr "0.0004";
                     "timestamp" := JInt 1700000000000 ]} ];
     get_open_interest_hist := λ _, Raised TimeoutError;
     get_funding_rate := λ _, Raised TimeoutError;
     get_premium_index := λ _, Raised TimeoutError |}.

(** The premium index has a null [lastFundingRate]; the history has a
    rate. *)
Definition api_null_funding : BinanceAPI :=
  {| get_futures_ticker := λ _, Raised TimeoutError;
     get_futures_orderbook := λ _ _, Raised TimeoutError;
     get_futures_kline := λ _, Raised TimeoutError;
     get_basis := λ _, Raised TimeoutError;
     get_open_interest_hist := λ _, Raised TimeoutError;
     get_funding_rate := λ _, Returned [ {[ "fundingRate" := JStr "0.0001" ]} ];
     get_premium_index := λ _, Returned {[ "lastFundingRate" := JNull ]} |}.

(** The depth request fails; ticker and kline succeed. *)
Definition api_no_book : BinanceAPI :=
  {| get_futures_ticker := λ _,
       Returned {[ "volume" := JStr "1520.5"; "quoteVolume" := JStr "4031000" ]};
     get_futures_orderbook := λ _ _, Raised ClientError;
     get_futures_kline := λ _,
       Returned [ [ mk 1700000000000 0; mk 26501 (-1); mk 26520 (-1);
                    mk 26490 (-1); mk 265125 (-2); mk 12 0 ] ];
     get_basis := λ _, Raised TimeoutError;
     get_open_interest_hist := λ _, Raised TimeoutError;
     get_funding_rate := λ _, Raised TimeoutError;
     get_premium_index := λ _, Raised TimeoutError |}.

(** Every request returns an empty payload. *)
Definition api_empty : BinanceAPI :=
  {| get_futures_ticker := λ _, Returned ∅;
     get_futures_orderbook := λ _ _, Returned ∅;
     get_futures_kline := λ _, Returned [];
     get_basis := λ _, Returned [];
     get_open_interest_hist := λ _, Returned [];
     get_funding_rate := λ _, Returned [];
     get_premium_index := λ _, Returned ∅ |}.

(** * Facts *)

(** ** Digits and powers of ten *)

Section Digits.

Lemma pow10_pos (k : Z) : 0 <= k → 0 < 10 ^ k.
Proof. intros Hk. apply Z.pow_pos_nonneg; lia. Qed.

Lemma pow10_split (a b : Z) : 0 <= a → 0 <= b → 10 ^ (a + b) = 10 ^ a * 10 ^ b.
Proof. intros. apply Z.pow_add_r; lia. Qed.

Lemma pow10_succ (k : Z) : 0 <= k → 10 ^ (k + 1) = 10 * 10 ^ k.
Proof. intros. rewrite pow10_split by lia. change (10 ^ 1) with 10. lia. Qed.

Lemma pow10_le (a b : Z) : 0 <= a <= b → 10 ^ a <= 10 ^ b.
Proof. intros. apply Z.pow_le_mono_r; lia. Qed.

Lemma pow10_lt (a b : Z) : 0 <= a < b → 10 ^ a < 10 ^ b.
Proof. intros. apply Z.pow_lt_mono_r; lia. Qed.

Lemma ndigits_aux_ge1 (fuel : nat) (n : Z) : 1 <= ndigits_aux fuel n.
Proof.
  revert n. induction fuel as [|f IH]; intros n; simpl; [lia|].
  destruct (n <? 10); [lia|]. specialize (IH (n / 10)). lia.
Qed.

Lemma ndigits_aux_spec (fuel : nat) (n : Z) :
  0 < n → n < 10 ^ (Z.of_nat fuel + 1) →
  10 ^ (ndigits_aux fuel n - 1) <= n < 10 ^ ndigits_aux fuel n.
Proof.
  revert n. induction fuel as [|f IH]; intros n Hpos Hlt.
  - simpl in *. lia.
  - cbn [ndigits_aux]. destruct (Z.ltb_spec n 10) as [H10|H10].
    + simpl. lia.
    + assert (Hd : 0 < n / 10) by (apply Z.div_str_pos; lia).
      assert (Hb : n / 10 < 10 ^ (Z.of_nat f + 1)).
      { apply Z.div_lt_upper_bound; [lia|].
        rewrite <- pow10_succ by lia.
        replace (Z.of_nat f + 1 + 1) with (Z.of_nat (S f) + 1) by lia. exact Hlt. }
      specialize (IH _ Hd Hb).
      pose proof (ndigits_aux_ge1 f (n / 10)) as Hge.
      replace (1 + ndigits_aux f (n / 10) - 1)
        with ((ndigits_aux f (n / 10) - 1) + 1) by lia.
      replace (1 + ndigits_aux f (n / 10))
        with (ndigits_aux f (n / 10) + 1) by lia.
      rewrite !pow10_succ by lia.
      pose proof (Z.mul_div_le n 10 ltac:(lia)).
      pose proof (Z.mod_pos_bound n 10 ltac:(lia)).
      pose proof (Z.div_mod n 10 ltac:(lia)).
      lia.
Qed.

Lemma ndigits_ge1 (n : Z) : 1 <= ndigits n.
Proof. apply ndigits_aux_ge1. Qed.

Lemma ndigits_spec (n : Z) :
  0 < n → 10 ^ (ndigits n - 1) <= n < 10 ^ ndigits n.
Proof.
  intros Hpos. apply ndigits_aux_spec; [exact Hpos|].
  pose proof (Z.log2_nonneg n) as Hl.
  rewrite Z2Nat.id by exact Hl.
  destruct (Z.log2_spec n Hpos) as [_ Hu].
  eapply Z.lt_le_trans; [exact Hu|].
  replace (Z.succ (Z.log2 n)) with (Z.log2 n + 1) by lia.
  apply Z.pow_le_mono_l. lia.
Qed.

Lemma ndigits_unique (n d : Z) :
  0 < n → 10 ^ (d - 1) <= n < 10 ^ d → ndigits n = d.
Proof.
  intros Hpos [Hlo Hhi].
  destruct (ndigits_spec n Hpos) as [Hlo' Hhi'].
  pose proof (ndigits_ge1 n) as Hge.
  assert (Hd : 1 <= d).
  { destruct (Z.le_gt_cases 1 d) as [|Hneg]; [lia|].
    destruct (Z.eq_dec d 0) as [->|Hd0]; [simpl in Hhi; lia|].
    rewrite Z.pow_neg_r in Hhi by lia. lia. }
  destruct (Z.lt_trichotomy (ndigits n) d) as [Hc|[Hc|Hc]]; [|exact Hc|].
  - pose proof (pow10_le (ndigits n) (d - 1) ltac:(lia)). lia.
  - pose proof (pow10_le d (ndigits n - 1) ltac:(lia)). lia.
Qed.

Lemma ndigits_le_iff (n p : Z) :
  0 <= n → 1 <= p → ndigits n <= p ↔ n < 10 ^ p.
Proof.
  intros Hn Hp.
  destruct (Z.eq_dec n 0) as [->|Hnz].
  { change (ndigits 0) with 1. pose proof (pow10_pos p ltac:(lia)). lia. }
  destruct (ndigits_spec n ltac:(lia)) as [Hlo Hhi].
  pose proof (ndigits_ge1 n) as Hge.
  split; intros H.
  - pose proof (pow10_le (ndigits n) p ltac:(lia)). lia.
  - destruct (Z.le_gt_cases (ndigits n) p) as [|Hgt]; [lia|].
    pose proof (pow10_le p (ndigits n - 1) ltac:(lia)). lia.
Qed.

End Digits.

(** ** The value of a Decimal *)

Section Value.

Local Open Scope Q_scope.

Lemma ten_neq0 : ¬ inject_Z 10 == 0.
Proof. discriminate. Qed.

Lemma ten_pow_pos (e : Z) : 0 < inject_Z 10 ^ e.
Proof. apply Qpower_0_lt. reflexivity. Qed.

Lemma toQ_align (d : Decimal) (m : Z) :
  (m <= exp d)%Z →
  toQ d == inject_Z (coeff d * 10 ^ (exp d - m)) * inject_Z 10 ^ m.
Proof.
  intros Hm. unfold toQ.
  rewrite inject_Z_mult, Zpower_Qpower by lia.
  replace (exp d) with ((exp d - m) + m)%Z at 1 by lia.
  rewrite Qpower_plus by exact ten_neq0. ring.
Qed.

Lemma toQ_xadd (a b : Decimal) : toQ (xadd a b) == toQ a + toQ b.
Proof.
  rewrite (toQ_align a (Z.min (exp a) (exp b))) by lia.
  rewrite (toQ_align b (Z.min (exp a) (exp b))) by lia.
  unfold xadd, toQ; simpl. rewrite inject_Z_plus. ring.
Qed.

Lemma toQ_xneg (a : Decimal) : toQ (xneg a) == - toQ a.
Proof. unfold xneg, toQ; simpl. rewrite inject_Z_opp. ring. Qed.

Lemma toQ_xsub (a b : Decimal) : toQ (xsub a b) == toQ a - toQ b.
Proof. unfold xsub. rewrite toQ_xadd, toQ_xneg. ring. Qed.

Lemma toQ_xmul (a b : Decimal) : toQ (xmul a b) == toQ a * toQ b.
Proof.
  unfold xmul, toQ; simpl.
  rewrite inject_Z_mult, Qpower_plus by exact ten_neq0. ring.
Qed.

Lemma toQ_D0 : toQ D0 == 0.
Proof. reflexivity. Qed.

Lemma toQ_zero (d : Decimal) : coeff d = 0%Z → toQ d == 0.
Proof. intros H. unfold toQ. rewrite H. ring. Qed.

Lemma toQ_sign (d : Decimal) :
  (0 < toQ d ↔ (0 < coeff d)%Z) ∧ (toQ d == 0 ↔ coeff d = 0%Z).
Proof.
  pose proof (ten_pow_pos (exp d)) as Hp. unfold toQ.
  generalize dependent (inject_Z 10 ^ exp d). intros p Hp.
  destruct (Z.lt_trichotomy 0 (coeff d)) as [Hc|[Hc|Hc]].
  - assert (Hq : 0 < inject_Z (coeff d)) by (rewrite Zlt_Qlt in Hc; exact Hc).
    generalize dependent (inject_Z (coeff d)). intros q Hq.
    split; split; intros H; first [lia | nra | exfalso; nra].
  - rewrite <- Hc. change (inject_Z 0) with 0.
    split; split; intros H; first [lia | nra | exfalso; nra].
  - assert (Hq : inject_Z (coeff d) < 0) by (rewrite Zlt_Qlt in Hc; exact Hc).
    generalize dependent (inject_Z (coeff d)). intros q Hq.
    split; split; intros H; first [lia | nra | exfalso; nra].
Qed.

Lemma aligned_toQ (a b : Decimal) :
  let m := Z.min (exp a) (exp b) in
  toQ a == inject_Z (fst (aligned a b)) * inject_Z 10 ^ m ∧
  toQ b == inject_Z (snd (aligned a b)) * inject_Z 10 ^ m.
Proof.
  intros m. split; unfold aligned; simpl; apply toQ_align; lia.
Qed.

Lemma dle_toQ (a b : Decimal) : dle a b = true ↔ toQ a <= toQ b.
Proof.
  destruct (aligned_toQ a b) as [Ha Hb]. unfold dle.
  destruct (aligned a b) as [x y]; simpl in *.
  pose proof (ten_pow_pos (Z.min (exp a) (exp b))) as Hp.
  rewrite Ha, Hb, Z.leb_le, Zle_Qle. split; intros H; nra.
Qed.

Lemma dlt_toQ (a b : Decimal) : dlt a b = true ↔ toQ a < toQ b.
Proof.
  destruct (aligned_toQ a b) as [Ha Hb]. unfold dlt.
  destruct (aligned a b) as [x y]; simpl in *.
  pose proof (ten_pow_pos (Z.min (exp a) (exp b))) as Hp.
  rewrite Ha, Hb, Z.ltb_lt, Zlt_Qlt. split; intros H; nra.
Qed.

Lemma deq_toQ (a b : Decimal) : deq a b = true ↔ toQ a == toQ b.
Proof.
  destruct (aligned_toQ a b) as [Ha Hb]. unfold deq.
  destruct (aligned a b) as [x y]; simpl in *.
  pose proof (ten_pow_pos (Z.min (exp a) (exp b))) as Hp.
  rewrite Ha, Hb, Z.eqb_eq. split; intros H.
  - rewrite H. reflexivity.
  - apply inject_Z_injective.
    apply (Qmult_inj_r _ _ (inject_Z 10 ^ Z.min (exp a) (exp b))); [lra|exact H].
Qed.

Lemma dlt_false_toQ (a b : Decimal) : dlt a b = false ↔ toQ b <= toQ a.
Proof.
  destruct (dlt a b) eqn:E.
  - apply dlt_toQ in E. split; [discriminate|lra].
  - split; [|reflexivity]. intros _.
    destruct (Qlt_le_dec (toQ a) (toQ b)) as [H|H]; [|exact H].
    apply dlt_toQ in H. congruence.
Qed.


End Value.

(** ** Rounding to the context precision *)

Section Rounding.

Local Open Scope Q_scope.

Lemma prec_ge1 : (1 <= prec)%Z.
Proof. unfold prec. lia. Qed.

#[local] Opaque prec.

Lemma fits_fix (d : Decimal) : fits d = true → _fix d = d.
Proof. unfold fits, _fix. intros ->. reflexivity. Qed.

Lemma fits_zero (e : Z) : fits (mk 0 e) = true.
Proof.
  unfold fits. cbn [coeff]. change (ndigits (Z.abs 0)) with 1%Z.
  pose proof prec_ge1. apply Z.leb_le. lia.
Qed.

Lemma fits_xneg (d : Decimal) : fits (xneg d) = fits d.
Proof. unfold fits, xneg. cbn [coeff]. rewrite Z.abs_opp. reflexivity. Qed.

Lemma fix_xneg (d : Decimal) : _fix (xneg d) = xneg (_fix d).
Proof.
  unfold _fix, xneg. cbn [coeff exp]. rewrite Z.abs_opp, Z.sgn_opp.
  destruct (ndigits (Z.abs (coeff d)) <=? prec)%Z; [reflexivity|].
  repeat match goal with |- context [if ?b then _ else _] => destruct b end;
    cbn [coeff exp]; f_equal; lia.
Qed.

Lemma fits_iff (d : Decimal) :
  fits d = true ↔ (Z.abs (coeff d) < 10 ^ prec)%Z.
Proof.
  unfold fits. rewrite Z.leb_le.
  apply ndigits_le_iff; [lia|apply prec_ge1].
Qed.

(** The rounding branch of [_fix] on a positive coefficient: the result is
    the coefficient cut at [k] digits, or that plus one when digits were
    dropped. *)
Lemma fix_round_pos (c e : Z) :
  (0 < c)%Z → (prec < ndigits c)%Z →
  let k := (ndigits c - prec)%Z in
  ∃ q' : Z,
    toQ (_fix (mk c e)) == inject_Z q' * inject_Z 10 ^ (e + k) ∧
    (10 ^ (prec - 1) <= c / 10 ^ k)%Z ∧
    (q' = (c / 10 ^ k)%Z ∨ (q' = (c / 10 ^ k + 1)%Z ∧ (0 < c mod 10 ^ k)%Z)).
Proof.
  intros Hc Hn k. pose proof prec_ge1 as Hp.
  assert (Hk : (1 <= k)%Z) by (unfold k; lia).
  pose proof (pow10_pos k ltac:(lia)) as Hpk.
  assert (Hq : (10 ^ (prec - 1) <= c / 10 ^ k)%Z).
  { apply Z.div_le_lower_bound; [lia|].
    destruct (ndigits_spec c Hc) as [Hlo _].
    replace (ndigits c - 1)%Z with (k + (prec - 1))%Z in Hlo by (unfold k; lia).
    rewrite pow10_split in Hlo by lia. lia. }
  pose proof (Z.mod_pos_bound c (10 ^ k) Hpk) as Hr.
  unfold _fix. cbn [coeff exp].
  rewrite Z.abs_eq by lia. rewrite Z.sgn_pos by lia.
  destruct (Z.leb_spec (ndigits c) prec) as [|_]; [lia|].
  fold k.
  set (q := (c / 10 ^ k)%Z) in *. set (r := (c mod 10 ^ k)%Z) in *.
  set (up := ((10 ^ k <? 2 * r)%Z || ((10 ^ k =? 2 * r)%Z && Z.odd q))).
  assert (Hup : up = true → (0 < r)%Z).
  { unfold up. intros H. apply orb_true_iff in H as [H|H].
    - apply Z.ltb_lt in H. lia.
    - apply andb_true_iff in H as [H _]. apply Z.eqb_eq in H. lia. }
  exists (if up then q + 1 else q)%Z. split; [|split; [exact Hq|]].
  - destruct (Z.eqb_spec (if up then q + 1 else q)%Z (10 ^ prec)%Z) as [E|_].
    + rewrite E.
      rewrite (toQ_align (mk (1 * 10 ^ (prec - 1)) (e + k + 1)) (e + k))
        by (cbn [exp]; lia).
      cbn [coeff exp].
      replace (e + k + 1 - (e + k))%Z with 1%Z by lia.
      replace (1 * 10 ^ (prec - 1) * 10 ^ 1)%Z with (10 ^ prec)%Z; [reflexivity|].
      replace prec with ((prec - 1) + 1)%Z at 1 by lia.
      rewrite pow10_split by lia. lia.
    + unfold toQ. cbn [coeff exp].
      replace (1 * (if up then q + 1 else q))%Z
        with (if up then q + 1 else q)%Z by lia.
      reflexivity.
  - destruct up; [right; split; [reflexivity|apply Hup; reflexivity]|left; reflexivity].
Qed.

(** A Decimal of at most [prec] digits is not strictly inside a cell
    [M * 10 ^ G .. (M + 1) * 10 ^ G] when [M] has [prec] digits or more. *)
Lemma grid (r : Decimal) (M G : Z) :
  fits r = true → (10 ^ (prec - 1) <= M)%Z →
  (toQ r < inject_Z (M + 1) * inject_Z 10 ^ G →
   toQ r <= inject_Z M * inject_Z 10 ^ G) ∧
  (inject_Z M * inject_Z 10 ^ G < toQ r →
   inject_Z (M + 1) * inject_Z 10 ^ G <= toQ r).
Proof.
  intros Hr HM. pose proof prec_ge1 as Hp.
  apply fits_iff in Hr.
  destruct (Z.le_gt_cases G (exp r)) as [Hge|Hlt].
  - rewrite (toQ_align r G Hge).
    pose proof (ten_pow_pos G) as HG.
    generalize dependent (inject_Z 10 ^ G). intros P HP.
    set (x := (coeff r * 10 ^ (exp r - G))%Z).
    split; intros H.
    + assert (Hx : inject_Z x < inject_Z (M + 1)) by nra.
      rewrite <- Zlt_Qlt in Hx.
      assert (Hx' : (x <= M)%Z) by lia. rewrite Zle_Qle in Hx'. nra.
    + assert (Hx : inject_Z M < inject_Z x) by nra.
      rewrite <- Zlt_Qlt in Hx.
      assert (Hx' : (M + 1 <= x)%Z) by lia. rewrite Zle_Qle in Hx'. nra.
  - assert (Hsmall : toQ r < inject_Z M * inject_Z 10 ^ G).
    { pose proof (toQ_align (mk M G) (exp r) ltac:(cbn [exp]; lia)) as E.
      unfold toQ in E at 1. cbn [coeff exp] in E. rewrite E. clear E.
      unfold toQ.
      pose proof (ten_pow_pos (exp r)) as HG.
      generalize dependent (inject_Z 10 ^ exp r). intros P HP.
      assert (Hc : (coeff r < M * 10 ^ (G - exp r))%Z).
      { pose proof (pow10_le 1 (G - exp r) ltac:(lia)) as H1.
        change (10 ^ 1)%Z with 10%Z in H1.
        assert (H2 : (10 ^ prec = 10 ^ (prec - 1) * 10)%Z).
        { replace prec with ((prec - 1) + 1)%Z at 1 by lia.
          rewrite pow10_split by lia. reflexivity. }
        pose proof (pow10_pos (prec - 1) ltac:(lia)) as H3.
        assert (coeff r < 10 ^ prec)%Z by lia.
        nia. }
      rewrite Zlt_Qlt in Hc. nra. }
    split; intros H; lra.
Qed.

Lemma scale_pow (q e k : Z) :
  (0 <= k)%Z →
  inject_Z q * inject_Z 10 ^ (e + k) == inject_Z (q * 10 ^ k) * inject_Z 10 ^ e.
Proof.
  intros Hk. pose proof (toQ_align (mk q (e + k)) e ltac:(cbn [exp]; lia)) as E.
  unfold toQ in E. cbn [coeff exp] in E.
  replace (e + k - e)%Z with k in E by lia. exact E.
Qed.

Lemma cut_bounds (c k : Z) :
  (0 < 10 ^ k)%Z →
  (c / 10 ^ k * 10 ^ k <= c)%Z ∧ (c + 1 <= (c / 10 ^ k + 1) * 10 ^ k)%Z ∧
  (0 < c mod 10 ^ k → c / 10 ^ k * 10 ^ k + 1 <= c)%Z.
Proof.
  intros Hp. pose proof (Z.div_mod c (10 ^ k) ltac:(lia)) as E.
  pose proof (Z.mod_pos_bound c (10 ^ k) Hp) as B. nia.
Qed.

Lemma fix_pos_lower (c e : Z) (r : Decimal) :
  (0 < c)%Z → (prec < ndigits c)%Z → fits r = true →
  toQ r < inject_Z (c + 1) * inject_Z 10 ^ e →
  toQ r <= toQ (_fix (mk c e)).
Proof.
  intros Hc Hn Hr H. pose proof prec_ge1 as Hp.
  destruct (fix_round_pos c e Hc Hn) as (q' & Eq & Hq & Hq').
  set (k := (ndigits c - prec)%Z) in *.
  assert (Hk : (0 <= k)%Z) by (unfold k; lia).
  pose proof (pow10_pos k Hk) as Hpk.
  destruct (cut_bounds c k Hpk) as (_ & B & _).
  set (q := (c / 10 ^ k)%Z) in *.
  destruct (grid r q (e + k) Hr Hq) as [G _].
  rewrite Eq.
  assert (Hle : toQ r <= inject_Z q * inject_Z 10 ^ (e + k)).
  { apply G. rewrite scale_pow by exact Hk.
    rewrite Zle_Qle in B.
    pose proof (ten_pow_pos e) as HP.
    generalize dependent (inject_Z 10 ^ e). intros P ? HP. nra. }
  assert (Hqq : inject_Z q <= inject_Z q').
  { rewrite <- Zle_Qle. lia. }
  pose proof (ten_pow_pos (e + k)) as HP.
  generalize dependent (inject_Z 10 ^ (e + k)). intros P; intros. nra.
Qed.

Lemma fix_pos_upper (c e : Z) (r : Decimal) :
  (0 < c)%Z → (prec < ndigits c)%Z → fits r = true →
  inject_Z c * inject_Z 10 ^ e <= toQ r →
  toQ (_fix (mk c e)) <= toQ r.
Proof.
  intros Hc Hn Hr H. pose proof prec_ge1 as Hp.
  destruct (fix_round_pos c e Hc Hn) as (q' & Eq & Hq & Hq').
  set (k := (ndigits c - prec)%Z) in *.
  assert (Hk : (0 <= k)%Z) by (unfold k; lia).
  pose proof (pow10_pos k Hk) as Hpk.
  destruct (cut_bounds c k Hpk) as (B1 & _ & B3).
  set (q := (c / 10 ^ k)%Z) in *.
  destruct (grid r q (e + k) Hr Hq) as [_ G].
  rewrite Eq. pose proof (ten_pow_pos e) as HP.
  destruct Hq' as [->|[-> Hrem]].
  - rewrite scale_pow by exact Hk. rewrite Zle_Qle in B1.
    generalize dependent (inject_Z 10 ^ e). intros P; intros. nra.
  - apply G. rewrite scale_pow by exact Hk.
    specialize (B3 Hrem). rewrite Zle_Qle in B3.
    rewrite inject_Z_plus in B3. change (inject_Z 1) with 1 in B3.
    generalize dependent (inject_Z 10 ^ e). intros P; intros. nra.
Qed.

Lemma fix_pos_upper_sticky (c e : Z) (r : Decimal) :
  (0 <= c)%Z → (prec < ndigits (c + 1))%Z → fits r = true →
  ((c + 1) mod 5 = 1)%Z →
  inject_Z c * inject_Z 10 ^ e < toQ r →
  toQ (_fix (mk (c + 1) e)) <= toQ r.
Proof.
  intros Hc Hn Hr H5 H. pose proof prec_ge1 as Hp.
  destruct (fix_round_pos (c + 1) e ltac:(lia) Hn) as (q' & Eq & Hq & Hq').
  set (k := (ndigits (c + 1) - prec)%Z) in *.
  assert (Hk : (1 <= k)%Z) by (unfold k; lia).
  pose proof (pow10_pos k ltac:(lia)) as Hpk.
  assert (Hrem : (0 < (c + 1) mod 10 ^ k)%Z).
  { assert (Hdiv : (5 | 10 ^ k)%Z).
    { exists (2 * 10 ^ (k - 1))%Z.
      replace k with ((k - 1) + 1)%Z at 1 by lia.
      rewrite pow10_split by lia. change (10 ^ 1)%Z with 10%Z. lia. }
    pose proof (Z.mod_mod_divide (c + 1) (10 ^ k) 5 Hdiv) as E.
    pose proof (Z.mod_pos_bound (c + 1) (10 ^ k) Hpk) as B.
    destruct (Z.eq_dec ((c + 1) mod 10 ^ k) 0%Z) as [Z0|]; [|lia].
    rewrite Z0 in E. change (0 mod 5)%Z with 0%Z in E. lia. }
  destruct (cut_bounds (c + 1) k Hpk) as (_ & _ & B3). specialize (B3 Hrem).
  set (q := ((c + 1) / 10 ^ k)%Z) in *.
  destruct (grid r q (e + k) Hr Hq) as [_ G].
  rewrite Eq.
  assert (Hge : inject_Z (q + 1) * inject_Z 10 ^ (e + k) <= toQ r).
  { apply G. rewrite scale_pow by lia.
    assert (B4 : (q * 10 ^ k <= c)%Z) by lia. rewrite Zle_Qle in B4.
    pose proof (ten_pow_pos e) as HP.
    generalize dependent (inject_Z 10 ^ e). intros P; intros. nra. }
  assert (Hqq : inject_Z q' <= inject_Z (q + 1)).
  { rewrite <- Zle_Qle. lia. }
  pose proof (ten_pow_pos (e + k)) as HP.
  generalize dependent (inject_Z 10 ^ (e + k)). intros P; intros. nra.
Qed.

Lemma not_fits_nonzero (d : Decimal) : fits d = false → coeff d ≠ 0%Z.
Proof.
  intros H E. destruct d as [c e]. cbn [coeff] in E. subst c.
  rewrite fits_zero in H. discriminate.
Qed.

Lemma not_fits_digits (d : Decimal) :
  fits d = false → (prec < ndigits (Z.abs (coeff d)))%Z.
Proof. unfold fits. intros H. apply Z.leb_gt in H. exact H. Qed.

Lemma mk_neg (c e : Z) : mk c e = xneg (mk (- c) e).
Proof. unfold xneg. cbn [coeff exp]. f_equal. lia. Qed.

(** Rounding never crosses a Decimal of at most [prec] digits. *)
Lemma fix_lower (d r : Decimal) :
  fits r = true → toQ r <= toQ d → toQ r <= toQ (_fix d).
Proof.
  intros Hr H. destruct (fits d) eqn:Hd; [rewrite fits_fix by exact Hd; exact H|].
  pose proof (not_fits_nonzero d Hd) as Hnz.
  pose proof (not_fits_digits d Hd) as Hn.
  destruct d as [c e]. cbn [coeff] in *.
  destruct (Z.lt_trichotomy c 0) as [Hc|[Hc|Hc]]; [|lia|].
  - rewrite Z.abs_neq in Hn by lia.
    rewrite (mk_neg c e), fix_xneg, toQ_xneg.
    rewrite (mk_neg c e), toQ_xneg in H.
    assert (toQ (_fix (mk (- c) e)) <= toQ (xneg r)); [|rewrite toQ_xneg in *; lra].
    apply fix_pos_upper; [lia|exact Hn|rewrite fits_xneg; exact Hr|].
    rewrite toQ_xneg. unfold toQ in H at 2. cbn [coeff exp] in H. lra.
  - rewrite Z.abs_eq in Hn by lia.
    apply fix_pos_lower; [lia|exact Hn|exact Hr|].
    unfold toQ in H at 2. cbn [coeff exp] in H.
    rewrite inject_Z_plus. change (inject_Z 1) with 1.
    pose proof (ten_pow_pos e) as HP.
    generalize dependent (inject_Z 10 ^ e). intros P; intros. nra.
Qed.

Lemma fix_upper (d r : Decimal) :
  fits r = true → toQ d <= toQ r → toQ (_fix d) <= toQ r.
Proof.
  intros Hr H.
  assert (toQ (xneg r) <= toQ (_fix (xneg d))).
  { apply fix_lower; [rewrite fits_xneg; exact Hr|]. rewrite !toQ_xneg. lra. }
  rewrite fix_xneg, !toQ_xneg in H0. lra.
Qed.

Lemma fix_exact (d r : Decimal) :
  fits r = true → toQ d == toQ r → toQ (_fix d) == toQ r.
Proof.
  intros Hr H. apply Qle_antisym.
  - apply fix_upper; [exact Hr|lra].
  - apply fix_lower; [exact Hr|lra].
Qed.

Lemma fix_pos (d : Decimal) : 0 < toQ d → 0 < toQ (_fix d).
Proof.
  intros H. destruct (fits d) eqn:Hd; [rewrite fits_fix by exact Hd; exact H|].
  pose proof (not_fits_digits d Hd) as Hn.
  apply toQ_sign in H. destruct d as [c e]. cbn [coeff] in *.
  rewrite Z.abs_eq in Hn by lia.
  destruct (fix_round_pos c e H Hn) as (q' & Eq & Hq & Hq').
  rewrite Eq. pose proof prec_ge1.
  pose proof (pow10_pos (prec - 1) ltac:(lia)).
  assert (Hq0 : 0 < inject_Z q').
  { change 0 with (inject_Z 0). rewrite <- Zlt_Qlt. lia. }
  pose proof (ten_pow_pos (e + (ndigits c - prec))) as HP.
  generalize dependent (inject_Z 10 ^ (e + (ndigits c - prec))).
  intros P; intros. nra.
Qed.

Lemma fix_nonpos_iff (d : Decimal) : toQ (_fix d) <= 0 ↔ toQ d <= 0.
Proof.
  split; intros H.
  - destruct (Qlt_le_dec 0 (toQ d)) as [Hp|Hp]; [|exact Hp].
    apply fix_pos in Hp. lra.
  - rewrite <- toQ_D0. apply fix_upper; [reflexivity|]. rewrite toQ_D0. exact H.
Qed.

End Rounding.

(** ** Division *)

Section Division.

Local Open Scope Q_scope.

#[local] Opaque prec.

Lemma strip_zeros_spec (fuel : nat) (c e ideal : Z) :
  toQ (mk (strip_zeros fuel c e ideal).1 (strip_zeros fuel c e ideal).2)
    == toQ (mk c e) ∧
  ((0 < c)%Z → (0 < (strip_zeros fuel c e ideal).1)%Z).
Proof.
  revert c e. induction fuel as [|f IH]; intros c e; cbn [strip_zeros].
  - split; [reflexivity|tauto].
  - destruct ((e <? ideal)%Z && (c mod 10 =? 0)%Z) eqn:Hb;
      [|split; [reflexivity|tauto]].
    apply andb_true_iff in Hb as [_ Hm]. apply Z.eqb_eq in Hm.
    assert (Hc : (c = c / 10 * 10 ^ 1)%Z).
    { change (10 ^ 1)%Z with 10%Z.
      pose proof (Z.div_mod c 10 ltac:(lia)). lia. }
    destruct (IH (c / 10)%Z (e + 1)%Z) as [E P]. split.
    + rewrite E. unfold toQ. cbn [coeff exp].
      rewrite scale_pow by lia. rewrite <- Hc. reflexivity.
    + intros Hpos. apply P. change (10 ^ 1)%Z with 10%Z in Hc. lia.
Qed.

Lemma ge_pow_digits (q : Z) : (10 ^ prec <= q)%Z → (prec < ndigits q)%Z.
Proof.
  intros H. pose proof prec_ge1 as Hp.
  pose proof (pow10_pos prec ltac:(lia)) as Hpp.
  destruct (Z.lt_ge_cases prec (ndigits q)) as [|Hle]; [assumption|].
  apply ndigits_le_iff in Hle; lia.
Qed.

(** The quotient digits and their remainder, as [div_coeff] takes them. *)
Lemma div_quotient (x y ideal : Z) :
  (0 < x)%Z → (0 < y)%Z →
  let shift := (ndigits y - ndigits x + prec + 1)%Z in
  let e := (ideal - shift)%Z in
  let qr := if (0 <=? shift)%Z
            then ((x * 10 ^ shift / y)%Z, ((x * 10 ^ shift) mod y)%Z)
            else ((x / (y * 10 ^ (- shift)))%Z, (x mod (y * 10 ^ (- shift)))%Z) in
  (10 ^ prec <= qr.1)%Z ∧
  (qr.2 = 0%Z →
   inject_Z qr.1 * inject_Z 10 ^ e * inject_Z y == inject_Z x * inject_Z 10 ^ ideal) ∧
  (qr.2 ≠ 0%Z →
   inject_Z qr.1 * inject_Z 10 ^ e * inject_Z y < inject_Z x * inject_Z 10 ^ ideal) ∧
  inject_Z x * inject_Z 10 ^ ideal < inject_Z (qr.1 + 1) * inject_Z 10 ^ e * inject_Z y.
Proof.
  intros Hx Hy shift e qr. pose proof prec_ge1 as Hp.
  destruct (ndigits_spec x Hx) as [Hxl Hxu].
  destruct (ndigits_spec y Hy) as [Hyl Hyu].
  pose proof (ndigits_ge1 x) as Hlx. pose proof (ndigits_ge1 y) as Hly.
  pose proof (pow10_pos prec ltac:(lia)) as Hpp.
  unfold qr. destruct (Z.leb_spec 0 shift) as [Hs|Hs]; cbn [fst snd].
  - set (N := (x * 10 ^ shift)%Z).
    pose proof (pow10_pos shift Hs) as Hps.
    assert (HN : (y * 10 ^ prec <= N)%Z).
    { assert (H1 : (10 ^ (ndigits y + prec) <= N)%Z).
      { replace (ndigits y + prec)%Z with ((ndigits x - 1) + shift)%Z
          by (unfold shift; lia).
        rewrite pow10_split by lia. unfold N. nia. }
      rewrite pow10_split in H1 by lia. nia. }
    pose proof (Z.div_mod N y ltac:(lia)) as Hdm.
    pose proof (Z.mod_pos_bound N y Hy) as Hmb.
    assert (HX : inject_Z x * inject_Z 10 ^ ideal == inject_Z N * inject_Z 10 ^ e).
    { replace ideal with (e + shift)%Z by (unfold e; lia).
      apply scale_pow. exact Hs. }
    rewrite HX. pose proof (ten_pow_pos e) as HP.
    generalize dependent (inject_Z 10 ^ e). intros P; intros.
    split; [apply Z.div_le_lower_bound; lia|].
    split; [|split].
    + intros Hr. assert (E : (N = N / y * y)%Z) by lia.
      rewrite E at 2. rewrite inject_Z_mult. ring.
    + intros Hr. assert (E : (N / y * y < N)%Z) by lia.
      rewrite Zlt_Qlt, inject_Z_mult in E. nra.
    + assert (E : (N < (N / y + 1) * y)%Z) by lia.
      rewrite Zlt_Qlt, inject_Z_mult in E. nra.
  - set (s := (- shift)%Z). set (D := (y * 10 ^ s)%Z).
    assert (Hs0 : (0 < s)%Z) by (unfold s; lia).
    pose proof (pow10_pos s ltac:(lia)) as Hps.
    assert (HD : (0 < D)%Z) by (unfold D; nia).
    assert (HN : (D * 10 ^ prec <= x)%Z).
    { assert (H1 : (10 ^ ((ndigits y + s) + prec) <= x)%Z).
      { replace (ndigits y + s + prec)%Z with (ndigits x - 1)%Z
          by (unfold s, shift; lia). exact Hxl. }
      rewrite !pow10_split in H1 by lia. unfold D. nia. }
    pose proof (Z.div_mod x D ltac:(lia)) as Hdm.
    pose proof (Z.mod_pos_bound x D HD) as Hmb.
    assert (HE : ∀ q : Z, inject_Z q * inject_Z 10 ^ e * inject_Z y
                        == inject_Z (q * D) * inject_Z 10 ^ ideal).
    { intros q. replace e with (ideal + s)%Z by (unfold e, s; lia).
      rewrite scale_pow by lia. unfold D. rewrite !inject_Z_mult. ring. }
    rewrite !HE. pose proof (ten_pow_pos ideal) as HP.
    generalize dependent (inject_Z 10 ^ ideal). intros P; intros.
    split; [apply Z.div_le_lower_bound; lia|].
    split; [|split].
    + intros Hr. assert (E : (x = x / D * D)%Z) by lia.
      rewrite <- E. reflexivity.
    + intros Hr. assert (E : (x / D * D < x)%Z) by lia.
      rewrite Zlt_Qlt in E. nra.
    + assert (E : (x < (x / D + 1) * D)%Z) by lia.
      rewrite Zlt_Qlt in E. nra.
Qed.

Lemma div_mag (x y ideal : Z) (r : Decimal) :
  (0 < x)%Z → (0 < y)%Z → fits r = true →
  let qe := div_coeff x y ideal in
  (toQ r * inject_Z y <= inject_Z x * inject_Z 10 ^ ideal →
   toQ r <= toQ (_fix (mk qe.1 qe.2))) ∧
  (inject_Z x * inject_Z 10 ^ ideal <= toQ r * inject_Z y →
   toQ (_fix (mk qe.1 qe.2)) <= toQ r).
Proof.
  intros Hx Hy Hr qe. pose proof prec_ge1 as Hp.
  pose proof (div_quotient x y ideal Hx Hy) as HQ. cbv zeta in HQ.
  unfold qe, div_coeff.
  set (shift := (ndigits y - ndigits x + prec + 1)%Z) in *.
  set (e := (ideal - shift)%Z) in *.
  match type of HQ with context [if ?b then ?u else ?v] =>
    set (qr := if b then u else v) in *
  end.
  destruct qr as [q rm]. cbn [fst snd] in HQ.
  destruct HQ as (Hq & Hexact & Hinexact & Hup).
  pose proof (pow10_pos prec ltac:(lia)) as Hpp.
  assert (HY : 0 < inject_Z y).
  { change 0 with (inject_Z 0). rewrite <- Zlt_Qlt. exact Hy. }
  set (X := inject_Z x * inject_Z 10 ^ ideal) in *.
  destruct (Z.eqb_spec rm 0) as [Hrm|Hrm]; cbn [negb].
  - specialize (Hexact Hrm).
    destruct (strip_zeros_spec (Z.to_nat (ideal - e)) q e ideal) as [E _].
    set (st := strip_zeros (Z.to_nat (ideal - e)) q e ideal) in *.
    unfold toQ in E at 2. cbn [coeff exp] in E.
    split; intros H.
    + apply fix_lower; [exact Hr|]. rewrite E.
      generalize dependent (inject_Z 10 ^ e). intros P; intros.
      generalize dependent (toQ r). intros t; intros. nra.
    + apply fix_upper; [exact Hr|]. rewrite E.
      generalize dependent (inject_Z 10 ^ e). intros P; intros.
      generalize dependent (toQ r). intros t; intros. nra.
  - specialize (Hinexact Hrm).
    destruct (Z.eqb_spec (q mod 5) 0) as [H5|H5]; cbn [fst snd].
    + split; intros H.
      * apply fix_lower; [exact Hr|]. unfold toQ at 2. cbn [coeff exp].
        generalize dependent (inject_Z 10 ^ e). intros P; intros.
        generalize dependent (toQ r). intros t; intros. nra.
      * apply fix_pos_upper_sticky; [lia|apply ge_pow_digits; lia|exact Hr| |].
        -- rewrite Z.add_mod by lia. rewrite H5. reflexivity.
        -- generalize dependent (inject_Z 10 ^ e). intros P; intros.
           generalize dependent (toQ r). intros t; intros. nra.
    + split; intros H.
      * apply fix_pos_lower; [lia|apply ge_pow_digits; lia|exact Hr|].
        generalize dependent (inject_Z 10 ^ e). intros P; intros.
        generalize dependent (toQ r). intros t; intros. nra.
      * apply fix_upper; [exact Hr|]. unfold toQ at 1. cbn [coeff exp].
        generalize dependent (inject_Z 10 ^ e). intros P; intros.
        generalize dependent (toQ r). intros t; intros. nra.
Qed.

Lemma ddiv_some (a b : Decimal) :
  coeff b ≠ 0%Z → ∃ q, ddiv a b = Some q.
Proof.
  intros Hb. unfold ddiv. destruct (Z.eqb_spec (coeff b) 0) as [|_]; [tauto|].
  destruct (coeff a =? 0)%Z; [eexists; reflexivity|].
  destruct (div_coeff _ _ _). eexists; reflexivity.
Qed.

Lemma ddiv_zero (a b : Decimal) (q : Decimal) :
  coeff a = 0%Z → ddiv a b = Some q → coeff q = 0%Z.
Proof.
  intros Ha. unfold ddiv. destruct (coeff b =? 0)%Z; [discriminate|].
  rewrite Ha. cbn [Z.eqb]. rewrite fits_fix by apply fits_zero.
  intros [= <-]. reflexivity.
Qed.

(** The quotient by a positive divisor never crosses a Decimal of at most
    [prec] digits. *)
Lemma ddiv_bounds (a b r : Decimal) :
  (0 < coeff b)%Z → fits r = true →
  ∃ q, ddiv a b = Some q ∧
    (toQ r * toQ b <= toQ a → toQ r <= toQ q) ∧
    (toQ a <= toQ r * toQ b → toQ q <= toQ r).
Proof.
  intros Hb Hr. unfold ddiv.
  destruct (Z.eqb_spec (coeff b) 0) as [|_]; [lia|].
  assert (HB : 0 < toQ b) by (apply toQ_sign; exact Hb).
  destruct (Z.eqb_spec (coeff a) 0) as [Ha|Ha].
  - eexists; split; [reflexivity|].
    rewrite fits_fix by apply fits_zero.
    rewrite (toQ_zero a Ha), (toQ_zero (mk 0 _)) by reflexivity.
    generalize dependent (toQ b). intros tb; intros.
    generalize dependent (toQ r). intros t; intros. split; intros; nra.
  - rewrite (Z.sgn_pos (coeff b)) by lia. rewrite (Z.abs_eq (coeff b)) by lia.
    set (ideal := (exp a - exp b)%Z).
    assert (HV : ∀ t : Q, 
      (t * toQ b <= toQ a ↔
       t * inject_Z (coeff b) <= inject_Z (coeff a) * inject_Z 10 ^ ideal) ∧
      (toQ a <= t * toQ b ↔
       inject_Z (coeff a) * inject_Z 10 ^ ideal <= t * inject_Z (coeff b))).
    { intros t. unfold toQ.
      replace (exp a) with (ideal + exp b)%Z by (unfold ideal; lia).
      rewrite Qpower_plus by exact ten_neq0.
      pose proof (ten_pow_pos (exp b)) as HP.
      generalize dependent (inject_Z 10 ^ exp b). intros P; intros.
      generalize dependent (inject_Z 10 ^ ideal). intros P'; intros.
      generalize dependent (inject_Z (coeff a)). intros A; intros.
      generalize dependent (inject_Z (coeff b)). intros B; intros.
      split; split; intros; nra. }
    destruct (Z.lt_trichotomy (coeff a) 0) as [Hneg|[|Hpos]]; [|lia|].
    + rewrite (Z.sgn_neg (coeff a)) by lia.
      rewrite (Z.abs_neq (coeff a)) by lia.
      destruct (div_mag (- coeff a) (coeff b) ideal (xneg r)
                  ltac:(lia) Hb ltac:(rewrite fits_xneg; exact Hr)) as [L U].
      destruct (div_coeff (- coeff a) (coeff b) ideal) as [q e].
      cbn [fst snd] in L, U.
      eexists; split; [reflexivity|].
      replace (-1 * 1 * q)%Z with (- q)%Z by lia.
      rewrite (mk_neg (- q) e), fix_xneg, toQ_xneg.
      replace (- - q)%Z with q by lia.
      rewrite toQ_xneg, inject_Z_opp in L, U.
      destruct (HV (toQ r)) as [V1 V2].
      split; intros H.
      * apply V1 in H. assert (toQ (_fix (mk q e)) <= - toQ r); [|lra].
        apply U. lra.
      * apply V2 in H. assert (- toQ r <= toQ (_fix (mk q e))); [|lra].
        apply L. lra.
    + rewrite (Z.sgn_pos (coeff a)) by lia.
      rewrite (Z.abs_eq (coeff a)) by lia.
      destruct (div_mag (coeff a) (coeff b) ideal r Hpos Hb Hr) as [L U].
      destruct (div_coeff (coeff a) (coeff b) ideal) as [q e].
      cbn [fst snd] in L, U.
      eexists; split; [reflexivity|].
      replace (1 * 1 * q)%Z with q by lia.
      destruct (HV (toQ r)) as [V1 V2].
      split; intros H; [apply L, V1, H|apply U, V2, H].
Qed.

End Division.

(** ** The depth pricer *)

Section Pricer.

Local Open Scope Q_scope.

#[local] Opaque prec.

Lemma dlt_D0_pos (d : Decimal) : dlt D0 d = true ↔ (0 < coeff d)%Z.
Proof. rewrite dlt_toQ, toQ_D0. apply toQ_sign. Qed.

Lemma dmin_cases (a b : Decimal) :
  (dmin a b = b ∧ toQ b < toQ a) ∨ (dmin a b = a ∧ toQ a <= toQ b).
Proof.
  unfold dmin. destruct (dlt b a) eqn:E.
  - left. split; [reflexivity|apply dlt_toQ; exact E].
  - right. split; [reflexivity|apply dlt_false_toQ; exact E].
Qed.

Lemma remaining_nonpos (t qs : Decimal) :
  dle (dsub t qs) D0 = true ↔ toQ t <= toQ qs.
Proof.
  rewrite dle_toQ, toQ_D0. unfold dsub. rewrite fix_nonpos_iff, toQ_xsub.
  split; intros; lra.
Qed.


(** Every side has a weighted price: the division is guarded. *)
Lemma avg_price_some (levels : list level) (t : Decimal) :
  ∃ a, avg_price levels t = Some a.
Proof.
  unfold avg_price. destruct (accumulate levels t D0 D0) as [qs vs].
  destruct (dlt D0 qs) eqn:E; [|eexists; reflexivity].
  apply dlt_D0_pos in E. apply ddiv_some. lia.
Qed.

Lemma spread_of_avgs (ob : gmap string (list level)) (t b a : Decimal) :
  avg_price (default [] (ob !! "bids")) t = Some b →
  avg_price (default [] (ob !! "asks")) t = Some a →
  ∃ q, calculate_orderbook_spread ob t = Some q ∧
       bid_price q = b ∧ ask_price q = a ∧
       (truthy a && truthy b = false → spread q = D0 ∧ mid_price q = D0) ∧
       (truthy a && truthy b = true →
        spread q = dsub a b ∧ ddiv (dadd a b) D2 = Some (mid_price q)).
Proof.
  intros Hb Ha. unfold calculate_orderbook_spread.
  rewrite Hb, Ha. cbn [mbind option_bind].
  destruct (truthy a && truthy b) eqn:E.
  - destruct (ddiv_some (dadd a b) D2) as [m Hm]; [discriminate|].
    rewrite Hm. cbn [mbind option_bind]. eexists; split; [reflexivity|].
    cbn [bid_price ask_price spread mid_price].
    repeat split; try discriminate; reflexivity.
  - cbn [mbind option_bind]. eexists; split; [reflexivity|].
    cbn [bid_price ask_price spread mid_price].
    repeat split; try discriminate; reflexivity.
Qed.

Lemma calculate_orderbook_spread_some (ob : gmap string (list level))
    (t : Decimal) : ∃ q, calculate_orderbook_spread ob t = Some q.
Proof.
  destruct (avg_price_some (default [] (ob !! "bids")) t) as [b Hb].
  destruct (avg_price_some (default [] (ob !! "asks")) t) as [a Ha].
  destruct (spread_of_avgs ob t b a Hb Ha) as (q & Hq & _). eauto.
Qed.

(** The two prices of the result are the weighted prices of the two
    sides. *)
Lemma quote_sides (ob : gmap string (list level)) (t : Decimal) (q : quote) :
  calculate_orderbook_spread ob t = Some q →
  avg_price (default [] (ob !! "bids")) t = Some (bid_price q) ∧
  avg_price (default [] (ob !! "asks")) t = Some (ask_price q).
Proof.
  intros Hq.
  destruct (avg_price_some (default [] (ob !! "bids")) t) as [b Hb].
  destruct (avg_price_some (default [] (ob !! "asks")) t) as [a Ha].
  destruct (spread_of_avgs ob t b a Hb Ha) as (q' & Hq' & Eb & Ea & _).
  rewrite Hq in Hq'. injection Hq' as <-. rewrite Eb, Ea. split; assumption.
Qed.

Lemma accumulate_nonpos_target (levels : list level) (t : Decimal) :
  dle t D0 = true → accumulate levels t D0 D0 = (D0, D0).
Proof.
  intros Ht. destruct levels as [|[price qty] rest]; [reflexivity|].
  cbn [accumulate].
  assert (E : dle (dsub t D0) D0 = true).
  { apply remaining_nonpos. apply dle_toQ in Ht. exact Ht. }
  rewrite E. reflexivity.
Qed.

Lemma avg_price_nil (t : Decimal) : avg_price [] t = Some D0.
Proof. reflexivity. Qed.

Lemma avg_price_nonpos_target (levels : list level) (t : Decimal) :
  dle t D0 = true → avg_price levels t = Some D0.
Proof.
  intros Ht. unfold avg_price. rewrite accumulate_nonpos_target by exact Ht.
  reflexivity.
Qed.

Lemma toQ_nonneg (d : Decimal) : (0 <= coeff d)%Z → 0 <= toQ d.
Proof.
  intros H. unfold toQ. pose proof (ten_pow_pos (exp d)) as HP.
  rewrite Zle_Qle in H. change (inject_Z 0) with 0 in H.
  generalize dependent (inject_Z 10 ^ exp d). intros P; intros. nra.
Qed.

(** One iteration that does not round computes with the exact operations. *)
Lemma no_rounding_step (price qty : Decimal) (rest : list level)
    (t qs vs : Decimal) :
  no_rounding ((price, qty) :: rest) t qs vs = true →
  dle (dsub t qs) D0 = false →
  let fill := dmin qty (dsub t qs) in
  dsub t qs = xsub t qs ∧ fits price = true ∧
  dadd qs fill = xadd qs fill ∧ dmul fill price = xmul fill price ∧
  dadd vs (dmul fill price) = xadd vs (xmul fill price) ∧
  no_rounding rest t (dadd qs fill) (dadd vs (dmul fill price)) = true.
Proof.
  intros H Hb fill. cbn [no_rounding] in H. rewrite Hb in H. fold fill in H.
  repeat (apply andb_true_iff in H as [H ?]).
  assert (Em : dmul fill price = xmul fill price) by (apply fits_fix; assumption).
  repeat split; try assumption.
  - apply fits_fix; assumption.
  - apply fits_fix; assumption.
  - rewrite <- Em. apply fits_fix; assumption.
Qed.



Lemma filled_qty_nonneg (levels : list level) :
  nonneg_qty levels → 0 <= filled_qty levels.
Proof.
  induction 1 as [|[price qty] rest Hqty _ IH]; cbn [filled_qty]; [lra|].
  pose proof (toQ_nonneg qty Hqty). lra.
Qed.

Lemma total_depth_from (levels : list level) (a : Decimal) :
  toQ (foldl (λ acc (l : level), xadd acc l.2) a levels)
    == toQ a + filled_qty levels.
Proof.
  revert a. induction levels as [|[price qty] rest IH]; intros a; cbn.
  - ring.
  - rewrite IH, toQ_xadd. cbn [snd]. ring.
Qed.

Lemma total_notional_from (levels : list level) (a : Decimal) :
  toQ (foldl (λ acc (l : level), xadd acc (xmul l.2 l.1)) a levels)
    == toQ a + filled_value levels.
Proof.
  revert a. induction levels as [|[price qty] rest IH]; intros a; cbn.
  - ring.
  - rewrite IH, toQ_xadd, toQ_xmul. cbn [fst snd]. ring.
Qed.

Lemma total_depth_toQ (levels : list level) :
  toQ (total_depth levels) == filled_qty levels.
Proof. unfold total_depth. rewrite total_depth_from, toQ_D0. ring. Qed.

(** With enough depth the loop fills the target. *)
Lemma accumulate_reaches (levels : list level) (t qs vs : Decimal) :
  no_rounding levels t qs vs = true → nonneg_qty levels →
  toQ t <= toQ qs + filled_qty levels →
  toQ t <= toQ (accumulate levels t qs vs).1.
Proof.
  intros H Hq. revert qs vs H.
  induction Hq as [|[price qty] rest Hqty Hrest IH]; intros qs vs H Ht.
  - cbn in *. lra.
  - cbn [accumulate]. destruct (dle (dsub t qs) D0) eqn:Hb.
    + apply remaining_nonpos in Hb. exact Hb.
    + destruct (no_rounding_step _ _ _ _ _ _ H Hb) as (Er & _ & Eq & _ & _ & Hnr).
      apply IH; [exact Hnr|].
      rewrite Eq, toQ_xadd. cbn [filled_qty] in Ht.
      pose proof (filled_qty_nonneg rest Hrest) as Hnn.
      destruct (dmin_cases qty (dsub t qs)) as [[-> _]|[-> _]].
      * rewrite Er, toQ_xsub. lra.
      * lra.
Qed.







End Pricer.

(** * Properties of the depth pricer *)

Section PricerProperties.

Local Open Scope Q_scope.

#[local] Opaque prec.



(** C2. For bids [(100,1),(99,3)], asks [(101,2),(102,5)] and target size 2
    (given as the float 2.0 or as the integer 2) the pricer returns bid price
    99.5, ask price 101, spread 1.5 and mid price 100.25. *)
Theorem scenario_target_two :
  let orderbook : gmap string (list level) :=
    {[ "bids" := [(mk 100 0, mk 1 0); (mk 99 0, mk 3 0)];
       "asks" := [(mk 101 0, mk 2 0); (mk 102 0, mk 5 0)] ]} in
  let expected :=
    mkQuote (mk 995 (-1)) (mk 101 0) (mk 15 (-1)) (mk 10025 (-2)) in
  calculate_orderbook_spread orderbook (mk 20 (-1)) = Some expected ∧
  calculate_orderbook_spread orderbook (mk 2 0) = Some expected.
Proof. split; vm_compute; reflexivity. Qed.

(** C3. When a side is absent, because its level list is empty or because
    the target size is not positive, the pricer returns spread 0 and mid
    price 0, reports 0 for the absent side, and each side's price is still
    what that side alone gives. *)
Theorem absent_side_gives_zero (orderbook : gmap string (list level))
    (target_quantity : Decimal) :
  let bids := default [] (orderbook !! "bids") in
  let asks := default [] (orderbook !! "asks") in
  bids = [] ∨ asks = [] ∨ dle target_quantity D0 = true →
  ∃ q, calculate_orderbook_spread orderbook target_quantity = Some q ∧
    spread q = D0 ∧ mid_price q = D0 ∧
    (bids = [] ∨ dle target_quantity D0 = true → bid_price q = D0) ∧
    (asks = [] ∨ dle target_quantity D0 = true → ask_price q = D0) ∧
    avg_price bids target_quantity = Some (bid_price q) ∧
    avg_price asks target_quantity = Some (ask_price q).
Proof.
  intros bids asks H.
  destruct (avg_price_some bids target_quantity) as [b Hb].
  destruct (avg_price_some asks target_quantity) as [a Ha].
  destruct (spread_of_avgs orderbook target_quantity b a Hb Ha)
    as (q & Hq & Eb & Ea & Hzero & _).
  assert (Hbz : bids = [] ∨ dle target_quantity D0 = true → b = D0).
  { intros [E|E].
    - rewrite E, avg_price_nil in Hb. congruence.
    - rewrite avg_price_nonpos_target in Hb by exact E. congruence. }
  assert (Haz : asks = [] ∨ dle target_quantity D0 = true → a = D0).
  { intros [E|E].
    - rewrite E, avg_price_nil in Ha. congruence.
    - rewrite avg_price_nonpos_target in Ha by exact E. congruence. }
  assert (Hf : truthy a && truthy b = false).
  { destruct H as [E|[E|E]].
    - rewrite (Hbz (or_introl E)). apply andb_false_r.
    - rewrite (Haz (or_introl E)). reflexivity.
    - rewrite (Hbz (or_intror E)). apply andb_false_r. }
  destruct (Hzero Hf) as [Hs Hm].
  exists q. rewrite Eb, Ea. repeat split; assumption.
Qed.

Lemma absent_side_gives_zero_witness :
  ∃ q, calculate_orderbook_spread
         {[ "asks" := [(mk 101 0, mk 2 0); (mk 102 0, mk 5 0)] ]} (mk 3 0)
       = Some q ∧
    spread q = D0 ∧ mid_price q = D0 ∧ bid_price q = D0 ∧
    ask_price q = mk 1013333333333333333333333333 (-25).
Proof.
  destruct (absent_side_gives_zero
              {[ "asks" := [(mk 101 0, mk 2 0); (mk 102 0, mk 5 0)] ]} (mk 3 0))
    as (q & Hq & Hs & Hm & Hb & _ & _ & Ha).
  - left. reflexivity.
  - exists q. repeat split; try assumption.
    + apply Hb. left. reflexivity.
    + assert (E : Some (ask_price q)
                  = Some (mk 1013333333333333333333333333 (-25))).
      { rewrite <- Ha. vm_compute. reflexivity. }
      congruence.
Defined.




(** Why the quantities are taken non-negative: a negative quantity, which
    no order book holds, gives a negative fill, and the weighted price
    leaves the range of the prices consumed (here 25, below the price 50 of
    the only level with a positive fill). *)
Remark negative_quantity_leaves_range :
  let levels : list level := [(mk 100 0, mk (-1) 0); (mk 50 0, mk 5 0)] in
  consumed_prices levels (mk 2 0) = [mk 50 0] ∧
  avg_price levels (mk 2 0) = Some (mk 25 0).
Proof. vm_compute. split; reflexivity. Qed.


(** Why the quantities are taken non-negative: with quantities 5 and -4
    the depth 1 is positive and below the target 3, yet the first level
    alone fills the target and the loop stops before the second. *)
Remark negative_quantity_stops_early :
  let levels : list level := [(mk 100 0, mk 5 0); (mk 99 0, mk (-4) 0)] in
  total_depth levels = mk 1 0 ∧
  fills levels (mk 3 0) D0 = [(mk 100 0, mk 3 0)] ∧
  (accumulate levels (mk 3 0) D0 D0).1 = mk 3 0.
Proof. vm_compute. repeat split. Qed.



Lemma zero_prices_value (levels : list level) (t qs vs : Decimal) :
  Forall (λ l : level, coeff l.1 = 0%Z) levels → coeff vs = 0%Z →
  coeff (accumulate levels t qs vs).2 = 0%Z.
Proof.
  intros Hz. revert qs vs.
  induction Hz as [|[price qty] rest Hp _ IH]; intros qs vs Hv; cbn [accumulate].
  - exact Hv.
  - destruct (dle (dsub t qs) D0); [exact Hv|]. apply IH.
    cbn [fst] in Hp. unfold dmul, xmul. rewrite Hp, Z.mul_0_r.
    rewrite (fits_fix (mk 0 _)) by apply fits_zero.
    unfold dadd, xadd. cbn [coeff exp]. rewrite Hv.
    rewrite !Z.mul_0_l, Z.add_0_l.
    rewrite fits_fix by apply fits_zero. reflexivity.
Qed.

(** A side whose levels all have price 0 has weighted price zero, whatever
    it fills. *)
Lemma zero_prices_avg (levels : list level) (t a : Decimal) :
  Forall (λ l : level, coeff l.1 = 0%Z) levels →
  avg_price levels t = Some a → coeff a = 0%Z.
Proof.
  intros Hz. unfold avg_price.
  pose proof (zero_prices_value levels t D0 D0 Hz eq_refl) as Hv.
  destruct (accumulate levels t D0 D0) as [qs vs]. cbn [snd] in Hv.
  destruct (dlt D0 qs).
  - intros H. eapply ddiv_zero; eassumption.
  - intros [= <-]. reflexivity.
Qed.

(** C10. When both sides fill a positive quantity and the weighted price
    of one side is zero, the pricer returns spread 0 and mid price 0: a
    zero price is falsy, like an absent side. *)
Theorem zero_price_reads_as_absent (orderbook : gmap string (list level))
    (target_quantity : Decimal) (q : quote) :
  let bids := default [] (orderbook !! "bids") in
  let asks := default [] (orderbook !! "asks") in
  dlt D0 (accumulate bids target_quantity D0 D0).1 = true →
  dlt D0 (accumulate asks target_quantity D0 D0).1 = true →
  calculate_orderbook_spread orderbook target_quantity = Some q →
  coeff (bid_price q) = 0%Z ∨ coeff (ask_price q) = 0%Z →
  spread q = D0 ∧ mid_price q = D0.
Proof.
  intros bids asks _ _ Hq Hz.
  destruct (avg_price_some bids target_quantity) as [b Hb].
  destruct (avg_price_some asks target_quantity) as [a Ha].
  destruct (spread_of_avgs orderbook target_quantity b a Hb Ha)
    as (q' & Hq' & Eb & Ea & Hzero & _).
  rewrite Hq in Hq'. injection Hq' as <-.
  apply Hzero. unfold truthy. rewrite <- Eb, <- Ea.
  destruct Hz as [-> | ->]; cbn [Z.eqb negb]; [apply andb_false_r|reflexivity].
Qed.

Lemma zero_price_reads_as_absent_witness :
  ∃ q, calculate_orderbook_spread
         {[ "bids" := [(mk 0 0, mk 1 0); (mk 0 0, mk 3 0)];
            "asks" := [(mk 101 0, mk 2 0); (mk 102 0, mk 5 0)] ]} (mk 2 0)
       = Some q ∧
    ask_price q = mk 101 0 ∧ coeff (bid_price q) = 0%Z ∧
    spread q = D0 ∧ mid_price q = D0.
Proof.
  eexists. split; [vm_compute; reflexivity|].
  split; [reflexivity|]. split; [reflexivity|].
  apply (zero_price_reads_as_absent
           {[ "bids" := [(mk 0 0, mk 1 0); (mk 0 0, mk 3 0)];
              "asks" := [(mk 101 0, mk 2 0); (mk 102 0, mk 5 0)] ]} (mk 2 0)).
  - vm_compute; reflexivity.
  - vm_compute; reflexivity.
  - vm_compute; reflexivity.
  - left. reflexivity.
Defined.

End PricerProperties.

(** * The cycle: fetching and writing *)

Section Monitor.

Lemma fetch_all_data_inserts (self : PAXGMonitor) (api : BinanceAPI) :
  fetch_all_data self api =
  <["premium_index" := recorded (outcome_map PDict (get_premium_index api symbol))]>
  (<["funding_rate" := recorded (outcome_map PDicts (get_funding_rate api symbol))]>
  (<["open_interest_hist" :=
       recorded (outcome_map PDicts (get_open_interest_hist api symbol))]>
  (<["basis" := recorded (outcome_map PDicts (get_basis api pair))]>
  (<["kline" := recorded (outcome_map PRows (get_futures_kline api symbol))]>
  (<["orderbook" :=
       recorded (outcome_map PBook (get_futures_orderbook api symbol 100))]>
  (<["ticker" := recorded (outcome_map PDict (get_futures_ticker api symbol))]>
   ∅)))))).
Proof.
  unfold fetch_all_data, gather_return_exceptions, tasks.
  destruct (get_premium_index api symbol), (get_funding_rate api symbol),
    (get_open_interest_hist api symbol), (get_basis api pair),
    (get_futures_kline api symbol), (get_futures_orderbook api symbol 100),
    (get_futures_ticker api symbol); reflexivity.
Qed.

Lemma fetch_lookups (self : PAXGMonitor) (api : BinanceAPI) :
  let r := fetch_all_data self api in
  r !! "ticker"
    = Some (recorded (outcome_map PDict (get_futures_ticker api symbol))) ∧
  r !! "orderbook"
    = Some (recorded (outcome_map PBook (get_futures_orderbook api symbol 100))) ∧
  r !! "kline"
    = Some (recorded (outcome_map PRows (get_futures_kline api symbol))) ∧
  r !! "basis" = Some (recorded (outcome_map PDicts (get_basis api pair))) ∧
  r !! "open_interest_hist"
    = Some (recorded (outcome_map PDicts (get_open_interest_hist api symbol))) ∧
  r !! "funding_rate"
    = Some (recorded (outcome_map PDicts (get_funding_rate api symbol))) ∧
  r !! "premium_index"
    = Some (recorded (outcome_map PDict (get_premium_index api symbol))).
Proof.
  cbv zeta. rewrite fetch_all_data_inserts.
  repeat split; by simplify_map_eq.
Qed.

(** *** What the writers read from a fetched bundle *)

Lemma get_dict_recorded (raw : gmap string (option payload)) (key : string)
    (o : outcome (gmap string json)) :
  raw !! key = Some (recorded (outcome_map PDict o)) →
  get_dict raw key = Ok (or_dict o).
Proof.
  intros H. unfold get_dict, get_or. rewrite H.
  destruct o as [d|e]; cbn; [|reflexivity].
  case_bool_decide as Hd; cbn; [rewrite Hd|]; reflexivity.
Qed.

Lemma get_dicts_recorded (raw : gmap string (option payload)) (key : string)
    (o : outcome (list (gmap string json))) :
  raw !! key = Some (recorded (outcome_map PDicts o)) →
  get_dicts raw key = Ok (or_dicts o).
Proof.
  intros H. unfold get_dicts, get_or. rewrite H.
  destruct o as [[|d l]|e]; reflexivity.
Qed.

Lemma get_book_recorded (raw : gmap string (option payload)) (key : string)
    (o : outcome (gmap string (list level))) :
  raw !! key = Some (recorded (outcome_map PBook o)) →
  get_book raw key = Ok (or_book o).
Proof.
  intros H. unfold get_book, get_or. rewrite H.
  destruct o as [b|e]; cbn; [|reflexivity].
  case_bool_decide as Hb; cbn; [rewrite Hb|]; reflexivity.
Qed.

Lemma get_rows_recorded (raw : gmap string (option payload)) (key : string)
    (o : outcome (list (list Decimal))) :
  raw !! key = Some (recorded (outcome_map PRows o)) →
  get_rows raw key = Ok (or_rows o).
Proof.
  intros H. unfold get_rows, get_or. rewrite H.
  destruct o as [[|row k]|e]; reflexivity.
Qed.

Lemma spread_info_ok (orderbook : gmap string (list level)) (t : Decimal) :
  ∃ info, calculate_orderbook_spread orderbook t = Some info ∧
          spread_info orderbook t = Ok info.
Proof.
  destruct (calculate_orderbook_spread_some orderbook t) as [info H].
  exists info. split; [exact H|]. unfold spread_info. rewrite H. reflexivity.
Qed.

Lemma price_data_fetched (self : PAXGMonitor) (api : BinanceAPI) (now : Z) :
  ∃ info,
    calculate_orderbook_spread
      (or_book (get_futures_orderbook api symbol 100)) (target_oz self)
      = Some info ∧
    price_data self (fetch_all_data self api) now
      = Ok {[ "timestamp" := VJson (JInt now);
              "price" := close_price (or_rows (get_futures_kline api symbol));
              "mid_price" := VFloat (mid_price info) ]}.
Proof.
  destruct (fetch_lookups self api) as (_ & Hob & Hk & _).
  destruct (spread_info_ok (or_book (get_futures_orderbook api symbol 100))
              (target_oz self)) as (info & Hc & Hi).
  exists info. split; [exact Hc|]. unfold price_data.
  rewrite (get_rows_recorded _ _ _ Hk), (get_book_recorded _ _ _ Hob).
  cbn [mbind result_bind]. rewrite Hi. reflexivity.
Qed.

Lemma spread_data_fetched (self : PAXGMonitor) (api : BinanceAPI) (now : Z) :
  ∃ info,
    calculate_orderbook_spread
      (or_book (get_futures_orderbook api symbol 100)) (target_oz self)
      = Some info ∧
    spread_data self (fetch_all_data self api) now
      = Ok {[ "symbol" := VJson (JStr symbol);
              "spread" := VFloat (spread info);
              "timestamp" := VJson (JInt now) ]}.
Proof.
  destruct (fetch_lookups self api) as (_ & Hob & _).
  destruct (spread_info_ok (or_book (get_futures_orderbook api symbol 100))
              (target_oz self)) as (info & Hc & Hi).
  exists info. split; [exact Hc|]. unfold spread_data.
  rewrite (get_book_recorded _ _ _ Hob).
  cbn [mbind result_bind]. rewrite Hi. reflexivity.
Qed.

Lemma volume_data_fetched (self : PAXGMonitor) (api : BinanceAPI) (now : Z) :
  volume_data self (fetch_all_data self api) now
  = Ok {[ "symbol" := VJson (JStr symbol);
          "volume" :=
            VJson (dict_get (or_dict (get_futures_ticker api symbol))
                     "volume" (JStr ""));
          "quoteVolume" :=
            VJson (dict_get (or_dict (get_futures_ticker api symbol))
                     "quoteVolume" (JStr ""));
          "timestamp" := VJson (JInt now) ]}.
Proof.
  destruct (fetch_lookups self api) as (Ht & _).
  unfold volume_data. rewrite (get_dict_recorded _ _ _ Ht). reflexivity.
Qed.

Lemma funding_data_fetched (self : PAXGMonitor) (api : BinanceAPI) (now : Z) :
  funding_data self (fetch_all_data self api) now
  = Ok {[ "symbol" := VJson (JStr symbol);
          "fundingRate" :=
            VJson (funding_rate_of (or_dicts (get_funding_rate api symbol))
                     (or_dict (get_premium_index api symbol)));
          "timestamp" := VJson (JInt now) ]}.
Proof.
  destruct (fetch_lookups self api) as (_ & _ & _ & _ & _ & Hf & Hp).
  unfold funding_data.
  rewrite (get_dicts_recorded _ _ _ Hf), (get_dict_recorded _ _ _ Hp).
  reflexivity.
Qed.

Lemma basis_data_fetched (self : PAXGMonitor) (api : BinanceAPI) (now : Z) :
  ∃ data, basis_data self (fetch_all_data self api) now = Ok data ∧
    data !! "timestamp" = Some (VJson (first_stamp (get_basis api pair) now)).
Proof.
  destruct (fetch_lookups self api) as (_ & _ & _ & Hb & _).
  unfold basis_data. rewrite (get_dicts_recorded _ _ _ Hb).
  cbn [mbind result_bind mret result_ret].
  eexists; split; [reflexivity|].
  destruct (get_basis api pair) as [[|first rest]|e]; cbn [or_dicts first_stamp];
    by simplify_map_eq.
Qed.

Lemma open_interest_data_fetched (self : PAXGMonitor) (api : BinanceAPI)
    (now : Z) :
  ∃ data, open_interest_data self (fetch_all_data self api) now = Ok data ∧
    data !! "timestamp"
      = Some (VJson (first_stamp (get_open_interest_hist api symbol) now)).
Proof.
  destruct (fetch_lookups self api) as (_ & _ & _ & _ & Ho & _).
  unfold open_interest_data. rewrite (get_dicts_recorded _ _ _ Ho).
  cbn [mbind result_bind mret result_ret].
  eexists; split; [reflexivity|].
  destruct (get_open_interest_hist api symbol) as [[|first rest]|e];
    cbn [or_dicts first_stamp]; by simplify_map_eq.
Qed.

(** *** Runs of writers *)

Lemma write_all_cons (filepath : string) (r : result (gmap string pyval))
    (rest : list (string * result (gmap string pyval))) (w : world) :
  write_all ((filepath, r) :: rest) w =
  match r with
  | Raise e => (w, Raise e)
  | Ok d =>
    if bool_decide (filepath ∈ unwritable w) then (w, Raise OSError)
    else write_all rest (append_line filepath d w)
  end.
Proof.
  cbn [write_all]. unfold mbind, M_bind, lift, _append_jsonl.
  destruct r; [case_bool_decide|]; reflexivity.
Qed.

Lemma lines_append_ne (p p' : string) (d : gmap string pyval) (w : world) :
  p ≠ p' → lines (append_line p d w) !!! p' = lines w !!! p'.
Proof. intros H. unfold append_line. cbn [lines]. by rewrite lookup_total_insert_ne. Qed.

Lemma lines_append_eq (p : string) (d : gmap string pyval) (w : world) :
  lines (append_line p d w) !!! p = lines w !!! p ++ [d].
Proof. unfold append_line. cbn [lines]. by rewrite lookup_total_insert_eq. Qed.


(** A run whose dicts are all built and whose files can all be appended to
    returns; each file gets its dict as one more line. *)
Lemma write_all_ok (steps : list (string * result (gmap string pyval)))
    (w : world) :
  NoDup steps.*1 →
  Forall (λ s, (s.1 ∉ unwritable w) ∧ ∃ d, s.2 = Ok d) steps →
  ∃ w', write_all steps w = (w', Ok ()) ∧
    unwritable w' = unwritable w ∧
    (∀ p d, (p, Ok d) ∈ steps → lines w' !!! p = lines w !!! p ++ [d]) ∧
    (∀ p, p ∉ steps.*1 → lines w' !!! p = lines w !!! p).
Proof.
  revert w. induction steps as [|[p0 r0] rest IH]; intros w Hnd Hall.
  - exists w. repeat split. intros p d Hin. inversion Hin.
  - rewrite write_all_cons. cbn [fmap list_fmap fst] in Hnd.
    apply NoDup_cons in Hnd as [Hp0 Hnd].
    apply Forall_cons in Hall as [[Hw [d0 Hd0]] Hall].
    cbn [fst snd] in Hw, Hd0. subst r0.
    rewrite bool_decide_eq_false_2 by exact Hw.
    destruct (IH (append_line p0 d0 w) Hnd Hall) as (w' & Hr & Hu & Hin & Hout).
    exists w'. split; [exact Hr|]. split; [exact Hu|]. split.
    + intros p d Hpd. apply elem_of_cons in Hpd as [Heq|Hpd].
      * injection Heq as -> ->. rewrite (Hout p0 Hp0). apply lines_append_eq.
      * rewrite (Hin p d Hpd). rewrite lines_append_ne; [reflexivity|].
        intros ->. apply Hp0. apply list_elem_of_fmap.
        exists (p, Ok d). split; [reflexivity|exact Hpd].
    + intros p Hp. cbn [fmap list_fmap fst] in Hp.
      apply not_elem_of_cons in Hp as [Hne Hp].
      rewrite (Hout p Hp). apply lines_append_ne. congruence.
Qed.

(** *** The six files *)

Lemma files_paths (self : PAXGMonitor) :
  ((λ k, files self !!! k) <$> write_order) =
  [ output_dir self +:+ "/price.jsonl";
    output_dir self +:+ "/basisRate.jsonl";
    output_dir self +:+ "/openinterest.jsonl";
    output_dir self +:+ "/fundingRate.jsonl";
    output_dir self +:+ "/volume_24h.jsonl";
    output_dir self +:+ "/spread.jsonl" ].
Proof. reflexivity. Qed.

Lemma files_paths_nodup (self : PAXGMonitor) :
  NoDup ((λ k, files self !!! k) <$> write_order).
Proof.
  rewrite files_paths.
  repeat (apply NoDup_cons_2;
          [intros Hin;
           repeat (apply elem_of_cons in Hin as [Hin|Hin];
                   [apply (inj (String.app (output_dir self))) in Hin;
                    discriminate|]);
           inversion Hin|]).
  apply NoDup_nil_2.
Qed.

Lemma cycle_steps_paths (self : PAXGMonitor)
    (raw : gmap string (option payload)) (now : Z) :
  (cycle_steps self raw now).*1 = ((λ k, files self !!! k) <$> write_order).
Proof. reflexivity. Qed.

Lemma process_and_write_steps (self : PAXGMonitor)
    (raw : gmap string (option payload)) (now : Z) (w : world) :
  process_and_write self raw now w = write_all (cycle_steps self raw now) w.
Proof.
  unfold process_and_write, cycle_steps, write_all.
  unfold _write_price, _write_basis_rate, _write_open_interest,
    _write_funding_rate, _write_volume, _write_spread.
  unfold mbind, M_bind, mret, M_ret, lift, _append_jsonl.
  repeat match goal with
  | |- context [match ?r with Ok _ => _ | Raise _ => _ end] =>
    match r with
    | _ _ _ _ => destruct r; try reflexivity
    end
  | |- context [bool_decide ?P] => destruct (bool_decide P); try reflexivity
  end.
Qed.

End Monitor.

(** * Properties of the cycle *)

Section CycleProperties.

Ltac find_step :=
  first [apply list_elem_of_here | apply list_elem_of_further; find_step].

(** A cycle over files that can all be appended to returns, and each file
    gets the dict its writer built. *)
Lemma cycle_written (self : PAXGMonitor) (api : BinanceAPI) (now : Z)
    (w : world) :
  (∀ series, series ∈ write_order → files self !!! series ∉ unwritable w) →
  ∃ w', process_and_write self (fetch_all_data self api) now w = (w', Ok ()) ∧
    ∀ p d, (p, Ok d) ∈ cycle_steps self (fetch_all_data self api) now →
           lines w' !!! p = lines w !!! p ++ [d].
Proof.
  intros Hw. set (raw := fetch_all_data self api).
  destruct (write_all_ok (cycle_steps self raw now) w) as (w' & Hr & _ & Hin & _).
  - rewrite cycle_steps_paths. apply files_paths_nodup.
  - destruct (price_data_fetched self api now) as (i1 & _ & E1).
    destruct (spread_data_fetched self api now) as (i2 & _ & E6).
    destruct (basis_data_fetched self api now) as (d2 & E2 & _).
    destruct (open_interest_data_fetched self api now) as (d3 & E3 & _).
    pose proof (funding_data_fetched self api now) as E4.
    pose proof (volume_data_fetched self api now) as E5.
    unfold cycle_steps. fold raw in E1, E2, E3, E4, E5, E6.
    repeat (apply Forall_cons; split;
            [split; [apply Hw; unfold write_order; set_solver|eauto]|]).
    apply Forall_nil. constructor.
  - exists w'. split; [|exact Hin]. rewrite process_and_write_steps. exact Hr.
Qed.

(** C1. The bundle of [fetch_all_data] has exactly the seven operations as
    its keys, one entry each: the payload of an operation that returned,
    [None] for one that raised, whichever of them fail.  The function is
    total: it has no exception to pass on. *)
Theorem fetch_all_data_bundle (self : PAXGMonitor) (api : BinanceAPI) :
  let bundle := fetch_all_data self api in
  dom bundle
    = ({[ "ticker"; "orderbook"; "kline"; "basis"; "open_interest_hist";
          "funding_rate"; "premium_index" ]} : gset string) ∧
  size bundle = 7%nat ∧
  ∀ key o, (key, o) ∈ tasks api →
    bundle !! key = Some match o with
                         | Returned p => Some p
                         | Raised _ => None
                         end.
Proof.
  cbv zeta. split; [|split].
  - rewrite fetch_all_data_inserts. rewrite !dom_insert_L, dom_empty_L.
    set_solver.
  - rewrite fetch_all_data_inserts.
    repeat (rewrite map_size_insert_None; [|by simplify_map_eq]).
    rewrite map_size_empty. reflexivity.
  - intros key o Hin.
    destruct (fetch_lookups self api) as (H1 & H2 & H3 & H4 & H5 & H6 & H7).
    unfold tasks in Hin.
    repeat (apply elem_of_cons in Hin as [Hin|Hin];
            [injection Hin as -> ->; assumption|]).
    inversion Hin.
Qed.

(** C6, as stated, fails: the basis request returns an entry with
    timestamp 1700000000000 and the cycle starts at 1700000060000.  The
    price record carries the cycle's time, the basisRate record the
    entry's. *)
Lemma records_differ_in_timestamp :
  let w' := (process_and_write sample_monitor
               (fetch_all_data sample_monitor api_basis_only)
               1700000060000 (mkWorld ∅ ∅)).1 in
  ((λ d : gmap string pyval, d !! "timestamp")
     <$> (lines w' !!! "out/price.jsonl"))
    = [Some (VJson (JInt 1700000060000))] ∧
  ((λ d : gmap string pyval, d !! "timestamp")
     <$> (lines w' !!! "out/basisRate.jsonl"))
    = [Some (VJson (JInt 1700000000000))].
Proof. vm_compute. split; reflexivity. Qed.

(** C6, amended.  In a cycle whose six files can be appended to, six
    records are written, one per series.  The price, fundingRate,
    volume_24h and spread records carry the cycle's timestamp; the
    basisRate and openinterest records carry the timestamp of the first
    entry of their payload when it has one, and the cycle's otherwise. *)
Theorem cycle_timestamps (self : PAXGMonitor) (api : BinanceAPI) (now : Z)
    (w : world) :
  (∀ series, series ∈ write_order → files self !!! series ∉ unwritable w) →
  ∃ w', process_and_write self (fetch_all_data self api) now w = (w', Ok ()) ∧
    ∀ series, series ∈ write_order →
      ∃ data,
        lines w' !!! (files self !!! series)
          = lines w !!! (files self !!! series) ++ [data] ∧
        data !! "timestamp" = Some (VJson (cycle_stamp api now series)).
Proof.
  intros Hw. destruct (cycle_written self api now w Hw) as (w' & Hr & Hin).
  exists w'. split; [exact Hr|]. intros series Hs.
  destruct (price_data_fetched self api now) as (i1 & _ & E1).
  destruct (spread_data_fetched self api now) as (i2 & _ & E6).
  destruct (basis_data_fetched self api now) as (d2 & E2 & T2).
  destruct (open_interest_data_fetched self api now) as (d3 & E3 & T3).
  pose proof (funding_data_fetched self api now) as E4.
  pose proof (volume_data_fetched self api now) as E5.
  unfold cycle_steps in Hin. rewrite E1, E2, E3, E4, E5, E6 in Hin.
  unfold write_order in Hs.
  repeat (apply elem_of_cons in Hs as [->|Hs];
          [eexists; split; [apply Hin; find_step|];
           first [exact T2 | exact T3 | by vm_compute]|]).
  inversion Hs.
Qed.

Lemma cycle_timestamps_witness :
  ∃ w', process_and_write sample_monitor
          (fetch_all_data sample_monitor api_basis_only) 1700000060000
          (mkWorld ∅ ∅) = (w', Ok ()) ∧
    ∀ series, series ∈ write_order →
      ∃ data,
        lines w' !!! (files sample_monitor !!! series)
          = lines (mkWorld ∅ ∅) !!! (files sample_monitor !!! series) ++ [data] ∧
        data !! "timestamp"
          = Some (VJson (cycle_stamp api_basis_only 1700000060000 series)).
Proof.
  apply (cycle_timestamps sample_monitor api_basis_only 1700000060000
           (mkWorld ∅ ∅)).
  intros series _. cbn [unwritable]. apply not_elem_of_empty.
Defined.




(** C8, as stated, fails: the premium index is present with a null
    [lastFundingRate], which is not the empty string, and the record's
    fundingRate is the history's 0.0001 all the same. *)
Lemma null_rate_falls_back :
  get_premium_index api_null_funding symbol
    = Returned {[ "lastFundingRate" := JNull ]} ∧
  dict_get (or_dict (get_premium_index api_null_funding symbol))
    "lastFundingRate" (JStr "") = JNull ∧
  JNull ≠ JStr "" ∧
  funding_data sample_monitor
    (fetch_all_data sample_monitor api_null_funding) 1700000060000
  = Ok {[ "symbol" := VJson (JStr "PAXGUSDT");
          "fundingRate" := VJson (JStr "0.0001");
          "timestamp" := VJson (JInt 1700000060000) ]}.
Proof.
  split; [reflexivity|]. split; [reflexivity|]. split; [discriminate|].
  vm_compute. reflexivity.
Qed.

(** C8, amended.  The fundingRate field is the premium index's
    [lastFundingRate] when that value is truthy, as a non-empty string is.
    When it is falsy (the empty string, null, false, 0, an empty list or
    dict; a missing field and an absent payload read as the empty string)
    and the funding-rate history has an entry, the field is the first
    entry's [fundingRate], the empty string if it has none; with no entry
    the field stays the falsy value. *)
Theorem funding_rate_fallback (self : PAXGMonitor) (api : BinanceAPI)
    (now : Z) :
  let premium := or_dict (get_premium_index api symbol) in
  let history := or_dicts (get_funding_rate api symbol) in
  let last_rate := dict_get premium "lastFundingRate" (JStr "") in
  ∃ v,
    funding_data self (fetch_all_data self api) now
      = Ok {[ "symbol" := VJson (JStr symbol);
              "fundingRate" := VJson v;
              "timestamp" := VJson (JInt now) ]} ∧
    (json_truthy last_rate = true → v = last_rate) ∧
    (∀ s, last_rate = JStr s → s ≠ "" → v = JStr s) ∧
    (∀ first rest, json_truthy last_rate = false → history = first :: rest →
       v = dict_get first "fundingRate" (JStr "")) ∧
    (json_truthy last_rate = false → history = [] → v = last_rate) ∧
    (∀ e, get_premium_index api symbol = Raised e → last_rate = JStr "").
Proof.
  intros premium history last_rate.
  exists (funding_rate_of history premium).
  split; [apply funding_data_fetched|].
  unfold funding_rate_of. fold last_rate.
  assert (Ht : json_truthy last_rate = true → 
               match history with
               | [] => last_rate
               | first :: _ =>
                 if negb (json_truthy last_rate)
                 then dict_get first "fundingRate" (JStr "")
                 else last_rate
               end = last_rate).
  { intros H. destruct history; [reflexivity|]. rewrite H. reflexivity. }
  split; [exact Ht|]. split; [|split; [|split]].
  - intros s Hs Hne. rewrite <- Hs. apply Ht. rewrite Hs. cbn.
    apply negb_true_iff, String.eqb_neq. exact Hne.
  - intros first rest Hf ->. rewrite Hf. reflexivity.
  - intros _ ->. reflexivity.
  - intros e He. unfold last_rate, premium. rewrite He. reflexivity.
Qed.

Lemma empty_book_quote (t : Decimal) :
  calculate_orderbook_spread ∅ t = Some (mkQuote D0 D0 D0 D0).
Proof.
  unfold calculate_orderbook_spread. rewrite !lookup_empty. reflexivity.
Qed.

(** C9. In a cycle whose depth request fails while the ticker and the
    kline requests succeed, the price record carries the close of the
    first candle and mid_price 0, the spread record carries spread 0, and
    the volume_24h record carries the ticker's volume and quoteVolume. *)
Theorem book_failure_defaults (self : PAXGMonitor) (api : BinanceAPI)
    (now : Z) (w : world) (e : exn) (row : list Decimal)
    (rest : list (list Decimal)) (close : Decimal)
    (ticker : gmap string json) :
  get_futures_orderbook api symbol 100 = Raised e →
  get_futures_kline api symbol = Returned (row :: rest) →
  row !! 4%nat = Some close →
  get_futures_ticker api symbol = Returned ticker →
  (∀ series, series ∈ write_order → files self !!! series ∉ unwritable w) →
  ∃ w', process_and_write self (fetch_all_data self api) now w = (w', Ok ()) ∧
    lines w' !!! (files self !!! "price")
      = lines w !!! (files self !!! "price")
        ++ [ {[ "timestamp" := VJson (JInt now);
                "price" := VFloat close;
                "mid_price" := VFloat D0 ]} ] ∧
    lines w' !!! (files self !!! "spread")
      = lines w !!! (files self !!! "spread")
        ++ [ {[ "symbol" := VJson (JStr symbol);
                "spread" := VFloat D0;
                "timestamp" := VJson (JInt now) ]} ] ∧
    lines w' !!! (files self !!! "volume_24h")
      = lines w !!! (files self !!! "volume_24h")
        ++ [ {[ "symbol" := VJson (JStr symbol);
                "volume" := VJson (dict_get ticker "volume" (JStr ""));
                "quoteVolume" :=
                  VJson (dict_get ticker "quoteVolume" (JStr ""));
                "timestamp" := VJson (JInt now) ]} ].
Proof.
  intros Hob Hk Hrow Ht Hw.
  destruct (cycle_written self api now w Hw) as (w' & Hr & Hin).
  exists w'. split; [exact Hr|].
  destruct (price_data_fetched self api now) as (i1 & C1 & E1).
  destruct (spread_data_fetched self api now) as (i2 & C2 & E6).
  pose proof (volume_data_fetched self api now) as E5.
  rewrite Hob in C1, C2. cbn [or_book] in C1, C2.
  rewrite empty_book_quote in C1, C2.
  injection C1 as <-. injection C2 as <-.
  rewrite Hk in E1. cbn [or_rows close_price] in E1. rewrite Hrow in E1.
  rewrite Ht in E5. cbn [or_dict] in E5.
  cbn [mid_price] in E1. cbn [spread] in E6.
  unfold cycle_steps in Hin. rewrite E1, E5, E6 in Hin.
  repeat split; apply Hin; find_step.
Qed.

Lemma book_failure_defaults_witness :
  ∃ w', process_and_write sample_monitor
          (fetch_all_data sample_monitor api_no_book) 1700000060000
          (mkWorld ∅ ∅) = (w', Ok ()) ∧
    lines w' !!! "out/price.jsonl"
      = [ {[ "timestamp" := VJson (JInt 1700000060000);
             "price" := VFloat (mk 265125 (-2));
             "mid_price" := VFloat D0 ]} ] ∧
    lines w' !!! "out/spread.jsonl"
      = [ {[ "symbol" := VJson (JStr "PAXGUSDT");
             "spread" := VFloat D0;
             "timestamp" := VJson (JInt 1700000060000) ]} ] ∧
    lines w' !!! "out/volume_24h.jsonl"
      = [ {[ "symbol" := VJson (JStr "PAXGUSDT");
             "volume" := VJson (JStr "1520.5");
             "quoteVolume" := VJson (JStr "4031000");
             "timestamp" := VJson (JInt 1700000060000) ]} ].
Proof.
  destruct (book_failure_defaults sample_monitor api_no_book 1700000060000
              (mkWorld ∅ ∅) ClientError
              [ mk 1700000000000 0; mk 26501 (-1); mk 26520 (-1);
                mk 26490 (-1); mk 265125 (-2); mk 12 0 ] []
              (mk 265125 (-2))
              {[ "volume" := JStr "1520.5"; "quoteVolume" := JStr "4031000" ]})
    as (w' & Hr & Hp & Hs & Hv).
  - reflexivity.
  - reflexivity.
  - reflexivity.
  - reflexivity.
  - intros series _. cbn [unwritable]. apply not_elem_of_empty.
  - exists w'. split; [exact Hr|]. split; [exact Hp|]. split; [exact Hs|exact Hv].
Defined.

End CycleProperties.

(** * Further properties of the depth pricer *)

Section PricerFurther.

Local Open Scope Q_scope.

#[local] Opaque prec.

(** What [_fix] returns has at most [prec] digits. *)
Lemma fix_fits (d : Decimal) : fits (_fix d) = true.
Proof.
  destruct (fits d) eqn:Hd; [rewrite fits_fix by exact Hd; exact Hd|].
  pose proof (not_fits_nonzero d Hd) as Hnz.
  pose proof (not_fits_digits d Hd) as Hn.
  pose proof prec_ge1 as Hp.
  apply fits_iff. unfold _fix.
  destruct (Z.leb_spec (ndigits (Z.abs (coeff d))) prec) as [|_]; [lia|].
  set (a := Z.abs (coeff d)) in *.
  set (k := (ndigits a - prec)%Z).
  assert (Ha : (0 < a)%Z) by (unfold a; lia).
  assert (Hk : (1 <= k)%Z) by (unfold k; lia).
  pose proof (pow10_pos k ltac:(lia)) as Hpk.
  pose proof (pow10_pos (prec - 1) ltac:(lia)) as Hpp.
  assert (Hpw : (10 ^ prec = 10 * 10 ^ (prec - 1))%Z).
  { replace prec with ((prec - 1) + 1)%Z at 1 by lia.
    rewrite pow10_succ by lia. reflexivity. }
  assert (Hq : (0 <= a / 10 ^ k < 10 ^ prec)%Z).
  { split; [apply Z.div_pos; lia|].
    apply Z.div_lt_upper_bound; [lia|].
    destruct (ndigits_spec a Ha) as [_ Hu].
    replace (ndigits a) with (k + prec)%Z in Hu by (unfold k; lia).
    rewrite pow10_split in Hu by lia. lia. }
  set (q := (a / 10 ^ k)%Z) in *.
  assert (Hs : (Z.abs (Z.sgn (coeff d)) = 1)%Z) by lia.
  match goal with |- context [if ?b then (q + 1)%Z else q] =>
    set (q' := if b then (q + 1)%Z else q);
    assert (Hq' : (0 <= q' <= 10 ^ prec)%Z) by (unfold q'; destruct b; lia)
  end.
  destruct (Z.eqb_spec q' (10 ^ prec)%Z) as [E|E]; cbn [coeff];
    rewrite Z.abs_mul, Hs; [rewrite Z.abs_eq by lia|rewrite Z.abs_eq by lia]; lia.
Qed.

Lemma ddiv_fits (a b q : Decimal) : ddiv a b = Some q → fits q = true.
Proof.
  unfold ddiv. destruct (coeff b =? 0)%Z; [discriminate|].
  destruct (coeff a =? 0)%Z; [intros [= <-]; apply fix_fits|].
  destruct (div_coeff _ _ _). intros [= <-]. apply fix_fits.
Qed.

Lemma avg_price_fits (levels : list level) (t a : Decimal) :
  avg_price levels t = Some a → fits a = true.
Proof.
  unfold avg_price. destruct (accumulate levels t D0 D0) as [qs vs].
  destruct (dlt D0 qs); [apply ddiv_fits|].
  intros [= <-]. reflexivity.
Qed.

(** The loop over a longer side is the loop over its first part, carried
    on over the rest. *)
Lemma accumulate_app (l1 l2 : list level) (t qs vs : Decimal) :
  accumulate (l1 ++ l2) t qs vs
  = accumulate l2 t (accumulate l1 t qs vs).1 (accumulate l1 t qs vs).2.
Proof.
  revert qs vs. induction l1 as [|[price qty] rest IH]; intros qs vs.
  - reflexivity.
  - cbn [app accumulate]. destruct (dle (dsub t qs) D0) eqn:Hb.
    + cbn [fst snd]. destruct l2 as [|[p2 q2] r2]; [reflexivity|].
      cbn [accumulate]. rewrite Hb. reflexivity.
    + apply IH.
Qed.

Lemma accumulate_filled (levels : list level) (t qs vs : Decimal) :
  toQ t <= toQ qs → accumulate levels t qs vs = (qs, vs).
Proof.
  intros H. destruct levels as [|[price qty] rest]; [reflexivity|].
  cbn [accumulate].
  assert (Hb : dle (dsub t qs) D0 = true) by (apply remaining_nonpos; exact H).
  rewrite Hb. reflexivity.
Qed.

(** The loop never fills more than the target. *)
Lemma accumulate_le_target (levels : list level) (t qs vs : Decimal) :
  no_rounding levels t qs vs = true → nonneg_qty levels →
  toQ qs <= toQ t → toQ (accumulate levels t qs vs).1 <= toQ t.
Proof.
  intros H Hq. revert qs vs H.
  induction Hq as [|[price qty] rest Hqty Hrest IH]; intros qs vs H Ht.
  - exact Ht.
  - cbn [accumulate]. destruct (dle (dsub t qs) D0) eqn:Hb; [exact Ht|].
    destruct (no_rounding_step _ _ _ _ _ _ H Hb) as (Er & _ & Eq & _ & _ & Hnr).
    apply IH; [exact Hnr|]. rewrite Eq, toQ_xadd.
    pose proof (toQ_nonneg qty Hqty) as Hqn.
    destruct (dmin_cases qty (dsub t qs)) as [[-> _]|[-> Hle]].
    + rewrite Er, toQ_xsub. lra.
    + rewrite Er, toQ_xsub in Hle. lra.
Qed.






Lemma toQ_D2 : toQ D2 == 2.
Proof. reflexivity. Qed.





(** X2. When no step rounds, a side with non-negative quantities never
    fills more than a positive target, and fills exactly the target when
    its depth reaches it. *)
Theorem target_filled_exactly (levels : list level)
    (target_quantity : Decimal) :
  nonneg_qty levels →
  dlt D0 target_quantity = true →
  no_rounding levels target_quantity D0 D0 = true →
  dle (accumulate levels target_quantity D0 D0).1 target_quantity = true ∧
  (dle target_quantity (total_depth levels) = true →
   deq (accumulate levels target_quantity D0 D0).1 target_quantity = true).
Proof.
  intros Hq Ht Hnr. apply dlt_toQ in Ht. rewrite toQ_D0 in Ht.
  pose proof (accumulate_le_target levels target_quantity D0 D0 Hnr Hq) as Hle.
  rewrite toQ_D0 in Hle. specialize (Hle ltac:(lra)).
  split; [apply dle_toQ; exact Hle|].
  intros Hd. apply dle_toQ in Hd. rewrite total_depth_toQ in Hd.
  pose proof (accumulate_reaches levels target_quantity D0 D0 Hnr Hq) as Hge.
  rewrite toQ_D0, Qplus_0_l in Hge. specialize (Hge Hd).
  apply deq_toQ. lra.
Qed.

Lemma target_filled_exactly_witness :
  dle (accumulate [(mk 100 0, mk 1 0); (mk 99 0, mk 3 0)] (mk 20 (-1)) D0 D0).1
      (mk 20 (-1)) = true ∧
  deq (accumulate [(mk 100 0, mk 1 0); (mk 99 0, mk 3 0)] (mk 20 (-1)) D0 D0).1
      (mk 20 (-1)) = true.
Proof.
  destruct (target_filled_exactly
              [(mk 100 0, mk 1 0); (mk 99 0, mk 3 0)] (mk 20 (-1))) as [H1 H2].
  - repeat constructor; cbn; lia.
  - vm_compute; reflexivity.
  - vm_compute; reflexivity.
  - split; [exact H1|]. apply H2. vm_compute; reflexivity.
Defined.

(** X3. Once the first levels of a side fill the target, the levels after
    them change nothing: the side's sums and price, and the whole quote,
    are those of the first levels alone. *)
Theorem deeper_levels_ignored (l1 l2 : list level) (target_quantity : Decimal) :
  dle target_quantity (accumulate l1 target_quantity D0 D0).1 = true →
  accumulate (l1 ++ l2) target_quantity D0 D0
    = accumulate l1 target_quantity D0 D0 ∧
  avg_price (l1 ++ l2) target_quantity = avg_price l1 target_quantity ∧
  ∀ orderbook : gmap string (list level),
    calculate_orderbook_spread (<["bids" := l1 ++ l2]> orderbook) target_quantity
      = calculate_orderbook_spread (<["bids" := l1]> orderbook) target_quantity ∧
    calculate_orderbook_spread (<["asks" := l1 ++ l2]> orderbook) target_quantity
      = calculate_orderbook_spread (<["asks" := l1]> orderbook) target_quantity.
Proof.
  intros H. apply dle_toQ in H.
  assert (Ea : accumulate (l1 ++ l2) target_quantity D0 D0
               = accumulate l1 target_quantity D0 D0).
  { rewrite accumulate_app. rewrite accumulate_filled by exact H.
    destruct (accumulate l1 target_quantity D0 D0); reflexivity. }
  assert (Ep : avg_price (l1 ++ l2) target_quantity = avg_price l1 target_quantity).
  { unfold avg_price. rewrite Ea. reflexivity. }
  split; [exact Ea|]. split; [exact Ep|].
  intros orderbook. unfold calculate_orderbook_spread.
  rewrite !lookup_insert_eq.
  rewrite !(lookup_insert_ne _ "bids" "asks") by discriminate.
  rewrite !(lookup_insert_ne _ "asks" "bids") by discriminate.
  change (default [] (Some (l1 ++ l2))) with (l1 ++ l2).
  change (default [] (Some l1)) with l1.
  rewrite Ep. split; reflexivity.
Qed.

Lemma deeper_levels_ignored_witness :
  avg_price ([(mk 100 0, mk 1 0); (mk 99 0, mk 3 0)] ++ [(mk 98 0, mk 7 0)])
    (mk 20 (-1))
  = avg_price [(mk 100 0, mk 1 0); (mk 99 0, mk 3 0)] (mk 20 (-1)).
Proof.
  apply (deeper_levels_ignored
           [(mk 100 0, mk 1 0); (mk 99 0, mk 3 0)] [(mk 98 0, mk 7 0)]
           (mk 20 (-1))).
  vm_compute; reflexivity.
Defined.








(** X7. When both sides are present and the sum of the two weighted prices
    has at most 28 digits, the mid price lies between the weighted bid and
    the weighted ask, whichever of the two is the greater. *)
Theorem mid_between_bid_and_ask (orderbook : gmap string (list level))
    (target_quantity : Decimal) (q : quote) :
  calculate_orderbook_spread orderbook target_quantity = Some q →
  truthy (bid_price q) = true → truthy (ask_price q) = true →
  fits (xadd (ask_price q) (bid_price q)) = true →
  (dle (bid_price q) (ask_price q) = true →
   dle (bid_price q) (mid_price q) = true ∧
   dle (mid_price q) (ask_price q) = true) ∧
  (dle (ask_price q) (bid_price q) = true →
   dle (ask_price q) (mid_price q) = true ∧
   dle (mid_price q) (bid_price q) = true).
Proof.
  intros Hq Htb Hta Hfit.
  destruct (quote_sides _ _ _ Hq) as [Hb Ha].
  destruct (spread_of_avgs orderbook target_quantity _ _ Hb Ha)
    as (q' & Hq' & _ & _ & _ & Hboth).
  rewrite Hq in Hq'. injection Hq' as <-.
  destruct (Hboth ltac:(rewrite Hta, Htb; reflexivity)) as [_ Hm].
  pose proof (avg_price_fits _ _ _ Hb) as Fb.
  pose proof (avg_price_fits _ _ _ Ha) as Fa.
  unfold dadd in Hm. rewrite fits_fix in Hm by exact Hfit.
  set (s := xadd (ask_price q) (bid_price q)) in *.
  assert (Es : toQ s == toQ (ask_price q) + toQ (bid_price q))
    by (unfold s; apply toQ_xadd).
  destruct (ddiv_bounds s D2 (bid_price q) ltac:(reflexivity) Fb)
    as (m1 & Hm1 & Lb & Ub).
  destruct (ddiv_bounds s D2 (ask_price q) ltac:(reflexivity) Fa)
    as (m2 & Hm2 & La & Ua).
  rewrite Hm in Hm1, Hm2. injection Hm1 as <-. injection Hm2 as <-.
  rewrite toQ_D2, Es in Lb, Ub, La, Ua.
  split; intros Hle; apply dle_toQ in Hle; split; apply dle_toQ.
  - apply Lb. lra.
  - apply Ua. lra.
  - apply La. lra.
  - apply Ub. lra.
Qed.

Lemma mid_between_bid_and_ask_witness :
  ∃ q, calculate_orderbook_spread
         {[ "bids" := [(mk 100 0, mk 1 0); (mk 99 0, mk 3 0)];
            "asks" := [(mk 101 0, mk 2 0); (mk 102 0, mk 5 0)] ]} (mk 20 (-1))
       = Some q ∧
    dle (bid_price q) (mid_price q) = true ∧
    dle (mid_price q) (ask_price q) = true.
Proof.
  eexists. split; [vm_compute; reflexivity|].
  apply (mid_between_bid_and_ask
           {[ "bids" := [(mk 100 0, mk 1 0); (mk 99 0, mk 3 0)];
              "asks" := [(mk 101 0, mk 2 0); (mk 102 0, mk 5 0)] ]}
           (mk 20 (-1))).
  - vm_compute; reflexivity.
  - reflexivity.
  - reflexivity.
  - vm_compute; reflexivity.
  - vm_compute; reflexivity.
Defined.

End PricerFurther.

(** * Further properties of the cycle *)

Section CycleFurther.

(** A run only appends: the set of files that cannot be appended to is
    kept, every file keeps its lines and gets at most one more, and a file
    that is not of the run gets none. *)
Lemma write_all_frame (steps : list (string * result (gmap string pyval)))
    (w : world) :
  NoDup steps.*1 →
  unwritable (write_all steps w).1 = unwritable w ∧
  ∀ p, ∃ added,
    lines (write_all steps w).1 !!! p = lines w !!! p ++ added ∧
    (length added ≤ 1)%nat ∧ (p ∉ steps.*1 → added = []).
Proof.
  revert w. induction steps as [|[p0 r0] rest IH]; intros w Hnd.
  - split; [reflexivity|]. intros p. exists []. rewrite app_nil_r.
    split; [reflexivity|]. split; [cbn; lia|reflexivity].
  - rewrite write_all_cons. cbn [fmap list_fmap fst] in Hnd.
    apply NoDup_cons in Hnd as [Hp0 Hnd].
    assert (Hsame : unwritable w = unwritable w ∧
              ∀ p, ∃ added : list (gmap string pyval),
                lines w !!! p = lines w !!! p ++ added ∧
                (length added ≤ 1)%nat ∧ (p ∉ ((p0, r0) :: rest).*1 → added = [])).
    { split; [reflexivity|]. intros p. exists []. rewrite app_nil_r.
      split; [reflexivity|]. split; [cbn; lia|reflexivity]. }
    destruct r0 as [d|e]; [|exact Hsame].
    case_bool_decide as Hw; [exact Hsame|].
    destruct (IH (append_line p0 d w) Hnd) as [Hu Hl].
    split; [exact Hu|]. intros p. destruct (Hl p) as (added & Ha & Hlen & Hout).
    destruct (decide (p = p0)) as [->|Hne].
    + exists [d]. rewrite Ha, (Hout Hp0), app_nil_r, lines_append_eq.
      split; [reflexivity|]. split; [cbn; lia|].
      intros Hn. exfalso. apply Hn. cbn. apply list_elem_of_here.
    + exists added. rewrite Ha, lines_append_ne by congruence.
      split; [reflexivity|]. split; [exact Hlen|]. intros Hn. apply Hout.
      cbn [fmap list_fmap fst] in Hn. apply not_elem_of_cons in Hn as [_ Hn].
      exact Hn.
Qed.

(** A run that returns built every dict and could append to every file. *)
Lemma write_all_ok_inv (steps : list (string * result (gmap string pyval)))
    (w w' : world) :
  write_all steps w = (w', Ok ()) →
  Forall (λ s, (s.1 ∉ unwritable w) ∧ ∃ d, s.2 = Ok d) steps.
Proof.
  revert w. induction steps as [|[p0 r0] rest IH]; intros w H; [constructor|].
  rewrite write_all_cons in H. destruct r0 as [d|e]; [|discriminate].
  case_bool_decide as Hw; [discriminate|].
  constructor; [split; [exact Hw|eauto]|]. exact (IH _ H).
Qed.



Lemma cycle_steps_lookup (self : PAXGMonitor)
    (raw : gmap string (option payload)) (now : Z) (i : nat) (series : string) :
  write_order !! i = Some series →
  ∃ r, cycle_steps self raw now !! i = Some (files self !!! series, r).
Proof.
  intros Hi. unfold write_order in Hi. unfold cycle_steps.
  do 6 (destruct i as [|i]; [injection Hi as <-; eexists; reflexivity|]).
  discriminate.
Qed.

Lemma not_cycle_path (self : PAXGMonitor)
    (raw : gmap string (option payload)) (now : Z) (p : string) :
  (∀ series, series ∈ write_order → p ≠ files self !!! series) →
  p ∉ (cycle_steps self raw now).*1.
Proof.
  intros H Hin. rewrite cycle_steps_paths in Hin.
  apply list_elem_of_fmap in Hin as (series & -> & Hs).
  exact (H series Hs eq_refl).
Qed.

(** X8. Whatever the bundle holds and whether or not it raises,
    [process_and_write] only appends: every file keeps the lines it had
    and gets at most one more, a file other than the six gets none, and
    the set of files that cannot be appended to is left as it was. *)
Theorem process_and_write_only_appends (self : PAXGMonitor)
    (raw_data : gmap string (option payload)) (now : Z) (w : world) :
  let w' := (process_and_write self raw_data now w).1 in
  unwritable w' = unwritable w ∧
  ∀ p, ∃ added,
    lines w' !!! p = lines w !!! p ++ added ∧
    (length added ≤ 1)%nat ∧
    ((∀ series, series ∈ write_order → p ≠ files self !!! series) →
     added = []).
Proof.
  cbv zeta. rewrite process_and_write_steps.
  destruct (write_all_frame (cycle_steps self raw_data now) w) as [Hu Hl].
  { rewrite cycle_steps_paths. apply files_paths_nodup. }
  split; [exact Hu|]. intros p. destruct (Hl p) as (added & Ha & Hlen & Hout).
  exists added. repeat split; [exact Ha|exact Hlen|].
  intros Hp. apply Hout. apply not_cycle_path. exact Hp.
Qed.

(** X9. When [process_and_write] returns, each of the six files has
    exactly one more line, the dict its writer built. *)
Theorem process_and_write_returns_six_lines (self : PAXGMonitor)
    (raw_data : gmap string (option payload)) (now : Z) (w w' : world) :
  process_and_write self raw_data now w = (w', Ok ()) →
  ∀ i series, write_order !! i = Some series →
    ∃ data,
      cycle_steps self raw_data now !! i
        = Some (files self !!! series, Ok data) ∧
      lines w' !!! (files self !!! series)
        = lines w !!! (files self !!! series) ++ [data].
Proof.
  intros Hrun i series Hi. rewrite process_and_write_steps in Hrun.
  pose proof (write_all_ok_inv _ _ _ Hrun) as Hall.
  destruct (write_all_ok (cycle_steps self raw_data now) w) as (w2 & Hr & _ & Hin & _).
  { rewrite cycle_steps_paths. apply files_paths_nodup. }
  { exact Hall. }
  rewrite Hrun in Hr. injection Hr as <-.
  destruct (cycle_steps_lookup self raw_data now i series Hi) as [r Hr].
  rewrite Forall_forall in Hall.
  destruct (Hall _ (list_elem_of_lookup_2 _ _ _ Hr)) as [_ [d Hd]].
  cbn [snd] in Hd. subst r. exists d. split; [exact Hr|].
  apply Hin. eapply list_elem_of_lookup_2. exact Hr.
Qed.

Lemma process_and_write_returns_six_lines_witness :
  ∃ data,
    cycle_steps sample_monitor (fetch_all_data sample_monitor api_no_book)
      1700000060000 !! 4%nat
      = Some (files sample_monitor !!! "volume_24h", Ok data) ∧
    lines (process_and_write sample_monitor
             (fetch_all_data sample_monitor api_no_book) 1700000060000
             (mkWorld ∅ ∅)).1 !!! (files sample_monitor !!! "volume_24h")
      = lines (mkWorld ∅ ∅) !!! (files sample_monitor !!! "volume_24h") ++ [data].
Proof.
  apply (process_and_write_returns_six_lines sample_monitor
           (fetch_all_data sample_monitor api_no_book) 1700000060000
           (mkWorld ∅ ∅) _).
  - vm_compute. reflexivity.
  - reflexivity.
Defined.



(** *** What each dict is built from *)

Lemma price_data_reads (self : PAXGMonitor) (api1 api2 : BinanceAPI) (now : Z) :
  or_rows (get_futures_kline api1 symbol)
    = or_rows (get_futures_kline api2 symbol) →
  or_book (get_futures_orderbook api1 symbol 100)
    = or_book (get_futures_orderbook api2 symbol 100) →
  price_data self (fetch_all_data self api1) now
    = price_data self (fetch_all_data self api2) now.
Proof.
  intros Hk Hb.
  destruct (price_data_fetched self api1 now) as (i1 & C1 & ->).
  destruct (price_data_fetched self api2 now) as (i2 & C2 & ->).
  rewrite Hb, C2 in C1. injection C1 as ->. rewrite Hk. reflexivity.
Qed.

Lemma spread_data_reads (self : PAXGMonitor) (api1 api2 : BinanceAPI) (now : Z) :
  or_book (get_futures_orderbook api1 symbol 100)
    = or_book (get_futures_orderbook api2 symbol 100) →
  spread_data self (fetch_all_data self api1) now
    = spread_data self (fetch_all_data self api2) now.
Proof.
  intros Hb.
  destruct (spread_data_fetched self api1 now) as (i1 & C1 & ->).
  destruct (spread_data_fetched self api2 now) as (i2 & C2 & ->).
  rewrite Hb, C2 in C1. injection C1 as ->. reflexivity.
Qed.

Lemma basis_data_reads (self : PAXGMonitor) (api1 api2 : BinanceAPI) (now : Z) :
  or_dicts (get_basis api1 pair) = or_dicts (get_basis api2 pair) →
  basis_data self (fetch_all_data self api1) now
    = basis_data self (fetch_all_data self api2) now.
Proof.
  intros H.
  destruct (fetch_lookups self api1) as (_ & _ & _ & H1 & _).
  destruct (fetch_lookups self api2) as (_ & _ & _ & H2 & _).
  unfold basis_data.
  rewrite (get_dicts_recorded _ _ _ H1), (get_dicts_recorded _ _ _ H2), H.
  reflexivity.
Qed.

Lemma open_interest_data_reads (self : PAXGMonitor) (api1 api2 : BinanceAPI)
    (now : Z) :
  or_dicts (get_open_interest_hist api1 symbol)
    = or_dicts (get_open_interest_hist api2 symbol) →
  open_interest_data self (fetch_all_data self api1) now
    = open_interest_data self (fetch_all_data self api2) now.
Proof.
  intros H.
  destruct (fetch_lookups self api1) as (_ & _ & _ & _ & H1 & _).
  destruct (fetch_lookups self api2) as (_ & _ & _ & _ & H2 & _).
  unfold open_interest_data.
  rewrite (get_dicts_recorded _ _ _ H1), (get_dicts_recorded _ _ _ H2), H.
  reflexivity.
Qed.

Lemma funding_data_reads (self : PAXGMonitor) (api1 api2 : BinanceAPI)
    (now : Z) :
  or_dicts (get_funding_rate api1 symbol)
    = or_dicts (get_funding_rate api2 symbol) →
  or_dict (get_premium_index api1 symbol)
    = or_dict (get_premium_index api2 symbol) →
  funding_data self (fetch_all_data self api1) now
    = funding_data self (fetch_all_data self api2) now.
Proof.
  intros Hf Hp. rewrite !funding_data_fetched, Hf, Hp. reflexivity.
Qed.

Lemma volume_data_reads (self : PAXGMonitor) (api1 api2 : BinanceAPI) (now : Z) :
  or_dict (get_futures_ticker api1 symbol)
    = or_dict (get_futures_ticker api2 symbol) →
  volume_data self (fetch_all_data self api1) now
    = volume_data self (fetch_all_data self api2) now.
Proof. intros H. rewrite !volume_data_fetched, H. reflexivity. Qed.

(** X11. Each record depends only on the requests it is derived from: two
    cycles at the same time whose kline and depth requests had the same
    outcome build the same price dict, and likewise basisRate from the
    basis request, openinterest from the open-interest request,
    fundingRate from the funding-rate and premium-index requests,
    volume_24h from the ticker request, spread from the depth request. *)
Theorem records_depend_on_their_requests (self : PAXGMonitor)
    (api1 api2 : BinanceAPI) (now : Z) :
  let raw1 := fetch_all_data self api1 in
  let raw2 := fetch_all_data self api2 in
  (get_futures_kline api1 symbol = get_futures_kline api2 symbol →
   get_futures_orderbook api1 symbol 100 = get_futures_orderbook api2 symbol 100 →
   price_data self raw1 now = price_data self raw2 now) ∧
  (get_basis api1 pair = get_basis api2 pair →
   basis_data self raw1 now = basis_data self raw2 now) ∧
  (get_open_interest_hist api1 symbol = get_open_interest_hist api2 symbol →
   open_interest_data self raw1 now = open_interest_data self raw2 now) ∧
  (get_funding_rate api1 symbol = get_funding_rate api2 symbol →
   get_premium_index api1 symbol = get_premium_index api2 symbol →
   funding_data self raw1 now = funding_data self raw2 now) ∧
  (get_futures_ticker api1 symbol = get_futures_ticker api2 symbol →
   volume_data self raw1 now = volume_data self raw2 now) ∧
  (get_futures_orderbook api1 symbol 100 = get_futures_orderbook api2 symbol 100 →
   spread_data self raw1 now = spread_data self raw2 now).
Proof.
  cbv zeta. repeat split.
  - intros Hk Hb. apply price_data_reads; congruence.
  - intros H. apply basis_data_reads; congruence.
  - intros H. apply open_interest_data_reads; congruence.
  - intros Hf Hp. apply funding_data_reads; congruence.
  - intros H. apply volume_data_reads; congruence.
  - intros H. apply spread_data_reads; congruence.
Qed.

Lemma records_depend_on_their_requests_witness :
  basis_data sample_monitor (fetch_all_data sample_monitor api_down)
    1700000060000
  = basis_data sample_monitor (fetch_all_data sample_monitor api_no_book)
      1700000060000 ∧
  open_interest_data sample_monitor (fetch_all_data sample_monitor api_down)
    1700000060000
  = open_interest_data sample_monitor
      (fetch_all_data sample_monitor api_no_book) 1700000060000.
Proof.
  destruct (records_depend_on_their_requests sample_monitor
              api_down api_no_book 1700000060000) as (_ & Hb & Ho & _).
  split; [apply Hb|apply Ho]; reflexivity.
Defined.

(** X12. A request that returns an empty payload counts as one that
    failed: two cycles whose outcomes read the same through
    [raw_data.get(key) or default] run [process_and_write] alike, record
    for record and exception for exception. *)
Theorem empty_payload_reads_as_failure (self : PAXGMonitor)
    (api1 api2 : BinanceAPI) (now : Z) (w : world) :
  or_dict (get_futures_ticker api1 symbol)
    = or_dict (get_futures_ticker api2 symbol) →
  or_book (get_futures_orderbook api1 symbol 100)
    = or_book (get_futures_orderbook api2 symbol 100) →
  or_rows (get_futures_kline api1 symbol)
    = or_rows (get_futures_kline api2 symbol) →
  or_dicts (get_basis api1 pair) = or_dicts (get_basis api2 pair) →
  or_dicts (get_open_interest_hist api1 symbol)
    = or_dicts (get_open_interest_hist api2 symbol) →
  or_dicts (get_funding_rate api1 symbol)
    = or_dicts (get_funding_rate api2 symbol) →
  or_dict (get_premium_index api1 symbol)
    = or_dict (get_premium_index api2 symbol) →
  process_and_write self (fetch_all_data self api1) now w
    = process_and_write self (fetch_all_data self api2) now w.
Proof.
  intros Ht Hb Hk Hbs Ho Hf Hp. rewrite !process_and_write_steps.
  unfold cycle_steps.
  rewrite (price_data_reads self api1 api2 now Hk Hb).
  rewrite (basis_data_reads self api1 api2 now Hbs).
  rewrite (open_interest_data_reads self api1 api2 now Ho).
  rewrite (funding_data_reads self api1 api2 now Hf Hp).
  rewrite (volume_data_reads self api1 api2 now Ht).
  rewrite (spread_data_reads self api1 api2 now Hb).
  reflexivity.
Qed.

Lemma empty_payload_reads_as_failure_witness :
  process_and_write sample_monitor (fetch_all_data sample_monitor api_empty)
    1700000060000 (mkWorld ∅ ∅)
  = process_and_write sample_monitor (fetch_all_data sample_monitor api_down)
      1700000060000 (mkWorld ∅ ∅).
Proof.
  apply (empty_payload_reads_as_failure sample_monitor api_empty api_down
           1700000060000 (mkWorld ∅ ∅)); reflexivity.
Defined.

Ltac pick_elem :=
  first [apply list_elem_of_here | apply list_elem_of_further; pick_elem].

(** X13. When all seven requests fail and the six files can be appended
    to, the cycle still writes its six records, with the defaults: price 0
    and mid price 0, empty basis and open-interest fields with
    contractType PERPETUAL, an empty funding rate, empty volumes, spread
    0, each with the cycle's timestamp. *)
Theorem total_outage_writes_defaults (self : PAXGMonitor) (api : BinanceAPI)
    (now : Z) (w : world) :
  (∀ key o, (key, o) ∈ tasks api → ∃ e, o = Raised e) →
  (∀ series, series ∈ write_order → files self !!! series ∉ unwritable w) →
  ∃ w', process_and_write self (fetch_all_data self api) now w = (w', Ok ()) ∧
    lines w' !!! (files self !!! "price")
      = lines w !!! (files self !!! "price")
        ++ [ {[ "timestamp" := VJson (JInt now);
                "price" := VJson (JInt 0);
                "mid_price" := VFloat D0 ]} ] ∧
    lines w' !!! (files self !!! "basisRate")
      = lines w !!! (files self !!! "basisRate")
        ++ [ {[ "indexPrice" := VJson (JStr "");
                "contractType" := VJson (JStr "PERPETUAL");
                "basisRate" := VJson (JStr "");
                "futuresPrice" := VJson (JStr "");
                "annualizedBasisRate" := VJson (JStr "");
                "basis" := VJson (JStr "");
                "pair" := VJson (JStr pair);
                "timestamp" := VJson (JInt now) ]} ] ∧
    lines w' !!! (files self !!! "openinterest")
      = lines w !!! (files self !!! "openinterest")
        ++ [ {[ "symbol" := VJson (JStr symbol);
                "sumOpenInterest" := VJson (JStr "");
                "sumOpenInterestValue" := VJson (JStr "");
                "timestamp" := VJson (JInt now) ]} ] ∧
    lines w' !!! (files self !!! "fundingRate")
      = lines w !!! (files self !!! "fundingRate")
        ++ [ {[ "symbol" := VJson (JStr symbol);
                "fundingRate" := VJson (JStr "");
                "timestamp" := VJson (JInt now) ]} ] ∧
    lines w' !!! (files self !!! "volume_24h")
      = lines w !!! (files self !!! "volume_24h")
        ++ [ {[ "symbol" := VJson (JStr symbol);
                "volume" := VJson (JStr "");
                "quoteVolume" := VJson (JStr "");
                "timestamp" := VJson (JInt now) ]} ] ∧
    lines w' !!! (files self !!! "spread")
      = lines w !!! (files self !!! "spread")
        ++ [ {[ "symbol" := VJson (JStr symbol);
                "spread" := VFloat D0;
                "timestamp" := VJson (JInt now) ]} ].
Proof.
  intros Hdown Hw.
  assert (H1 : ∃ e, get_futures_ticker api symbol = Raised e).
  { destruct (Hdown "ticker" _ ltac:(unfold tasks; pick_elem)) as [e He].
    destruct (get_futures_ticker api symbol); [discriminate|eauto]. }
  assert (H2 : ∃ e, get_futures_orderbook api symbol 100 = Raised e).
  { destruct (Hdown "orderbook" _ ltac:(unfold tasks; pick_elem)) as [e He].
    destruct (get_futures_orderbook api symbol 100); [discriminate|eauto]. }
  assert (H3 : ∃ e, get_futures_kline api symbol = Raised e).
  { destruct (Hdown "kline" _ ltac:(unfold tasks; pick_elem)) as [e He].
    destruct (get_futures_kline api symbol); [discriminate|eauto]. }
  assert (H4 : ∃ e, get_basis api pair = Raised e).
  { destruct (Hdown "basis" _ ltac:(unfold tasks; pick_elem)) as [e He].
    destruct (get_basis api pair); [discriminate|eauto]. }
  assert (H5 : ∃ e, get_open_interest_hist api symbol = Raised e).
  { destruct (Hdown "open_interest_hist" _ ltac:(unfold tasks; pick_elem))
      as [e He].
    destruct (get_open_interest_hist api symbol); [discriminate|eauto]. }
  assert (H6 : ∃ e, get_funding_rate api symbol = Raised e).
  { destruct (Hdown "funding_rate" _ ltac:(unfold tasks; pick_elem)) as [e He].
    destruct (get_funding_rate api symbol); [discriminate|eauto]. }
  assert (H7 : ∃ e, get_premium_index api symbol = Raised e).
  { destruct (Hdown "premium_index" _ ltac:(unfold tasks; pick_elem)) as [e He].
    destruct (get_premium_index api symbol); [discriminate|eauto]. }
  destruct H1 as [e1 H1], H2 as [e2 H2], H3 as [e3 H3], H4 as [e4 H4],
    H5 as [e5 H5], H6 as [e6 H6], H7 as [e7 H7].
  destruct (cycle_written self api now w Hw) as (w' & Hr & Hin).
  exists w'. split; [exact Hr|].
  destruct (price_data_fetched self api now) as (i1 & C1 & E1).
  destruct (spread_data_fetched self api now) as (i2 & C2 & E6).
  pose proof (funding_data_fetched self api now) as E4.
  pose proof (volume_data_fetched self api now) as E5.
  rewrite H2 in C1, C2. cbn [or_book] in C1, C2.
  rewrite empty_book_quote in C1, C2.
  injection C1 as <-. injection C2 as <-.
  rewrite H3 in E1. rewrite H6, H7 in E4. rewrite H1 in E5.
  assert (E2 : basis_data self (fetch_all_data self api) now
               = basis_data self (fetch_all_data self api_down) now).
  { apply basis_data_reads. rewrite H4. reflexivity. }
  assert (E3 : open_interest_data self (fetch_all_data self api) now
               = open_interest_data self (fetch_all_data self api_down) now).
  { apply open_interest_data_reads. rewrite H5. reflexivity. }
  unfold cycle_steps in Hin. rewrite E1, E2, E3, E4, E5, E6 in Hin.
  repeat split; apply Hin; pick_elem.
Qed.

Lemma total_outage_writes_defaults_witness :
  ∃ w', process_and_write sample_monitor
          (fetch_all_data sample_monitor api_down) 1700000060000
          (mkWorld ∅ ∅) = (w', Ok ()) ∧
    lines w' !!! "out/fundingRate.jsonl"
      = [ {[ "symbol" := VJson (JStr "PAXGUSDT");
             "fundingRate" := VJson (JStr "");
             "timestamp" := VJson (JInt 1700000060000) ]} ].
Proof.
  destruct (total_outage_writes_defaults sample_monitor api_down
              1700000060000 (mkWorld ∅ ∅))
    as (w' & Hr & _ & _ & _ & Hf & _).
  - intros key o Hin. unfold tasks in Hin.
    repeat (apply elem_of_cons in Hin as [[= -> ->]|Hin];
            [eexists; reflexivity|]).
    inversion Hin.
  - intros series _. cbn [unwritable]. apply not_elem_of_empty.
  - exists w'. split; [exact Hr|exact Hf].
Defined.

(** A run appends to the files of its first [k] steps and to no other of
    its files; it returns exactly when [k] is the number of steps. *)
Lemma write_all_prefix (steps : list (string * result (gmap string pyval)))
    (w : world) :
  NoDup steps.*1 →
  ∃ k, (k ≤ length steps)%nat ∧
    ((write_all steps w).2 = Ok () ↔ k = length steps) ∧
    ∀ i p r, steps !! i = Some (p, r) →
      length (lines (write_all steps w).1 !!! p)
      = (length (lines w !!! p) + (if (i <? k)%nat then 1 else 0))%nat.
Proof.
  revert w. induction steps as [|[p0 r0] rest IH]; intros w Hnd.
  - exists 0%nat. split; [reflexivity|]. split; [split; reflexivity|].
    intros i p r Hi. destruct i; discriminate.
  - rewrite write_all_cons. cbn [fmap list_fmap fst] in Hnd.
    apply NoDup_cons in Hnd as [Hp0 Hnd].
    assert (Hstop : ∀ e, ∃ k, (k ≤ length ((p0, r0) :: rest))%nat ∧
              ((w, Raise e : result ()).2 = Ok () ↔ k = length ((p0, r0) :: rest)) ∧
              ∀ i p r, ((p0, r0) :: rest) !! i = Some (p, r) →
                length (lines (w, Raise e : result ()).1 !!! p)
                = (length (lines w !!! p) + (if (i <? k)%nat then 1 else 0))%nat).
    { intros e. exists 0%nat. cbn [fst snd length]. split; [lia|].
      split; [split; [discriminate|lia]|].
      intros i p r _. cbn. lia. }
    destruct r0 as [d|e]; [|apply Hstop].
    case_bool_decide as Hw; [apply Hstop|].
    destruct (IH (append_line p0 d w) Hnd) as (k & Hk & Hok & Hlen).
    destruct (write_all_frame rest (append_line p0 d w) Hnd) as [_ Hf].
    exists (S k). cbn [length]. split; [lia|]. split.
    + rewrite Hok. lia.
    + intros i p r Hi. destruct i as [|i].
      * cbn in Hi. injection Hi as <- <-.
        destruct (Hf p0) as (added & Ha & _ & Hout).
        rewrite Ha, (Hout Hp0), app_nil_r, lines_append_eq, length_app.
        cbn. reflexivity.
      * cbn in Hi. rewrite (Hlen i p r Hi).
        rewrite lines_append_ne.
        -- change (S i <? S k)%nat with (i <? k)%nat. reflexivity.
        -- intros ->. apply Hp0. apply list_elem_of_fmap.
           exists (p, r). split; [reflexivity|].
           eapply list_elem_of_lookup_2; exact Hi.
Qed.

Lemma cycle_prefix (self : PAXGMonitor)
    (raw_data : gmap string (option payload)) (now : Z) (w : world) :
  ∃ k, (k ≤ 6)%nat ∧
    ((process_and_write self raw_data now w).2 = Ok () ↔ k = 6%nat) ∧
    ∀ i series, write_order !! i = Some series →
      length (lines (process_and_write self raw_data now w).1
                !!! (files self !!! series))
      = (length (lines w !!! (files self !!! series))
         + (if (i <? k)%nat then 1 else 0))%nat.
Proof.
  rewrite process_and_write_steps.
  destruct (write_all_prefix (cycle_steps self raw_data now) w)
    as (k & Hk & Hok & Hlen).
  { rewrite cycle_steps_paths. apply files_paths_nodup. }
  exists k. split; [exact Hk|]. split; [exact Hok|].
  intros i series Hi.
  destruct (cycle_steps_lookup self raw_data now i series Hi) as [r Hr].
  exact (Hlen i _ r Hr).
Qed.

(** X14. The files [process_and_write] appends to in one call are the
    first [k] of the write order, one line each, for some [k]; it returns
    exactly when [k] is 6, and raises after [k] records otherwise. *)
Theorem process_and_write_appends_a_prefix (self : PAXGMonitor)
    (raw_data : gmap string (option payload)) (now : Z) (w : world) :
  ∃ k, (k ≤ 6)%nat ∧
    ((process_and_write self raw_data now w).2 = Ok () ↔ k = 6%nat) ∧
    ∀ i series, write_order !! i = Some series →
      length (lines (process_and_write self raw_data now w).1
                !!! (files self !!! series))
      = (length (lines w !!! (files self !!! series))
         + (if (i <? k)%nat then 1 else 0))%nat.
Proof. apply cycle_prefix. Qed.

(** X15. A series written later never gets ahead of one written earlier:
    if no file has more lines than a file before it in the write order,
    that is still so after [process_and_write], whether it returns or
    raises. *)
Theorem later_series_never_ahead (self : PAXGMonitor)
    (raw_data : gmap string (option payload)) (now : Z) (w : world) :
  (∀ i j a b, (i ≤ j)%nat →
     write_order !! i = Some a → write_order !! j = Some b →
     (length (lines w !!! (files self !!! b))
      ≤ length (lines w !!! (files self !!! a)))%nat) →
  ∀ i j a b, (i ≤ j)%nat →
    write_order !! i = Some a → write_order !! j = Some b →
    (length (lines (process_and_write self raw_data now w).1
               !!! (files self !!! b))
     ≤ length (lines (process_and_write self raw_data now w).1
                 !!! (files self !!! a)))%nat.
Proof.
  intros Hinv i j a b Hij Ha Hb.
  destruct (cycle_prefix self raw_data now w) as (k & _ & _ & Hlen).
  rewrite (Hlen i a Ha), (Hlen j b Hb).
  specialize (Hinv i j a b Hij Ha Hb).
  destruct (Nat.ltb_spec i k), (Nat.ltb_spec j k); lia.
Qed.

Lemma later_series_never_ahead_witness :
  (length (lines (process_and_write sample_monitor
                    (fetch_all_data sample_monitor api_down) 1700000060000
                    (mkWorld ∅ {[ "out/openinterest.jsonl" ]})).1
             !!! (files sample_monitor !!! "spread"))
   ≤ length (lines (process_and_write sample_monitor
                      (fetch_all_data sample_monitor api_down) 1700000060000
                      (mkWorld ∅ {[ "out/openinterest.jsonl" ]})).1
               !!! (files sample_monitor !!! "price")))%nat.
Proof.
  apply (later_series_never_ahead sample_monitor
           (fetch_all_data sample_monitor api_down) 1700000060000
           (mkWorld ∅ {[ "out/openinterest.jsonl" ]})) with (i := 0%nat) (j := 5%nat).
  - intros i j a b _ _ _. cbn [lines].
    rewrite !lookup_total_empty. reflexivity.
  - lia.
  - reflexivity.
  - reflexivity.
Defined.



End CycleFurther.
